(** * Finance-health-check frontend: session lifecycle, route guard and pages

    A shallow embedding of the client-side session logic of the SME
    finance dashboard ([frontend/src/App.tsx], [pages/Login.tsx],
    [pages/Register.tsx], [pages/Dashboard.tsx], [pages/RiskAssessment.tsx],
    [pages/Reports.tsx]) together with the properties its design document
    states about it.

    - [localStorage] is a finite map from keys to strings;
    - React state cells are record fields, setters are record updates;
    - [async] handlers are state transformers over a [World] that holds the
      session, the router location, the trace of observable calls and the
      page's own state; the HTTP client is an oracle giving, for each
      request, a resolved or a rejected promise. *)

From stdpp Require Import base option list strings gmap.
From Stdlib Require Import QArith.

Close Scope Q_scope.
Open Scope string_scope.
Open Scope list_scope.

(** ** JavaScript values and truthiness *)

Module Js.

(** A value of type [any] as the handlers inspect it: nullish, a string,
    an object (a plain object, or an array that holds one, as the detail
    of a validation error is) known by the text [JSON.stringify] gives for
    it, or some other value (a number, a boolean, an array of those) known
    by its truthiness and by that text. *)
Inductive value : Type :=
| Undefined
| Null
| Str (s : string)
| Other (truthy : bool) (json : string)
| Object (json : string).

(** [!!s] for a string. *)
Definition truthy_string (s : string) : bool :=
  negb (String.eqb s "").

(** [!!v]. *)
Definition truthy (v : value) : bool :=
  match v with
  | Undefined | Null => false
  | Str s => truthy_string s
  | Other t _ => t
  | Object _ => true
  end.

(** [!!x] for [x : string | null]. *)
Definition truthy_nullable (x : option string) : bool :=
  match x with
  | None => false
  | Some s => truthy_string s
  end.

(** [a || b]. *)
Definition or (a b : value) : value :=
  if truthy a then a else b.

(** [typeof v === 'string' ? v : JSON.stringify(v)], for a truthy [v]
    (for [undefined], [JSON.stringify] gives [undefined], which React
    shows as nothing: the empty text). *)
Definition to_display (v : value) : string :=
  match v with
  | Str s => s
  | Other _ json => json
  | Object json => json
  | Null => "null"
  | Undefined => ""
  end.

(** Whether React accepts the value as a child, as in [<Alert>{v}</Alert>]:
    it renders strings and numbers, skips nullish values and booleans, and
    throws on an object (objects are not valid as a React child). *)
Definition valid_child (v : value) : bool :=
  match v with
  | Object _ => false
  | Undefined | Null | Str _ | Other _ _ => true
  end.

End Js.

(** ** Web storage *)

Module Storage.

Abbreviation t := (gmap string string).

Definition getItem (key : string) (ls : t) : option string := ls !! key.
Definition setItem (key value : string) (ls : t) : t := <[key := value]> ls.
Definition removeItem (key : string) (ls : t) : t := delete key ls.

End Storage.

(** ** The session held by the root component ([App.tsx]) *)

Record Session : Type := mkSession {
  localStorage : gmap string string;
  isAuthenticated : bool
}.

Definition accessToken (s : Session) : option string :=
  Storage.getItem "access_token" (localStorage s).

Definition refreshToken (s : Session) : option string :=
  Storage.getItem "refresh_token" (localStorage s).

(** [useState(false)]: the state the component is first rendered with. *)
Definition mount (ls : gmap string string) : Session :=
  {| localStorage := ls; isAuthenticated := false |}.

(** The body of the mount effect:
    [const token = localStorage.getItem('access_token');
     setIsAuthenticated(!!token)]. *)
Definition initialize (s : Session) : Session :=
  let token := Storage.getItem "access_token" (localStorage s) in
  {| localStorage := localStorage s;
     isAuthenticated := Js.truthy_nullable token |}.

Definition handleLogin (token refreshToken : string) (s : Session) : Session :=
  let ls1 := Storage.setItem "access_token" token (localStorage s) in
  let ls2 := Storage.setItem "refresh_token" refreshToken ls1 in
  {| localStorage := ls2; isAuthenticated := true |}.

Definition handleLogout (s : Session) : Session :=
  let ls1 := Storage.removeItem "access_token" (localStorage s) in
  let ls2 := Storage.removeItem "refresh_token" ls1 in
  {| localStorage := ls2; isAuthenticated := false |}.

(** A page reload: the component is mounted afresh over the storage left
    behind, and its mount effect runs. *)
Definition reload (s : Session) : Session :=
  initialize (mount (localStorage s)).

(** *** Sequences of session operations *)

Inductive op : Type :=
| Initialize
| Login (accessToken refreshToken : string)
| Logout.

Definition step (s : Session) (o : op) : Session :=
  match o with
  | Initialize => initialize s
  | Login a r => handleLogin a r s
  | Logout => handleLogout s
  end.

Definition run (ops : list op) (s : Session) : Session :=
  fold_left step ops s.

(** [login] is only called with two non-empty strings. *)
Definition valid_op (o : op) : bool :=
  match o with
  | Login a r => Js.truthy_string a && Js.truthy_string r
  | Initialize | Logout => true
  end.

(** The state at application start over empty persisted storage. *)
Definition initial : Session := mount ∅.

(** The sessions that operation sequences lead to from [initial]. *)
Inductive reachable : Session -> Prop :=
| reachable_initial : reachable initial
| reachable_step (s : Session) (o : op) :
    reachable s -> valid_op o = true -> reachable (step s o).

(** ** The route guard ([App.tsx], the two [<Routes>] trees) *)

Inductive Page : Type :=
| LoginPage
| RegisterPage
| DashboardPage
| UploadPage
| RiskAssessmentPage
| ReportsPage
| SettingsPage.

(** What a [<Route>] carries in its [element] prop. *)
Inductive element : Type :=
| Render (p : Page)
| Navigate (to : string).

(** What the root component returns: the bare public tree, or the
    protected tree inside [<Layout>]. *)
Inductive view : Type :=
| Public (e : option element)
| Shell (e : option element).

(** The router compiles a static route path to the regular expression
    [^path\/*$] with the [i] flag (no [caseSensitive] prop is given): the
    pathname matches whatever the case of its letters and however many
    slashes it ends with. [canon] is the normal form under that relation:
    ASCII capitals lowered, trailing slashes removed. *)
Definition lower_ascii (c : Ascii.ascii) : Ascii.ascii :=
  let n := Ascii.N_of_ascii c in
  if (65 <=? n)%N && (n <=? 90)%N then Ascii.ascii_of_N (n + 32) else c.

Fixpoint lower (s : string) : string :=
  match s with
  | EmptyString => EmptyString
  | String c rest => String (lower_ascii c) (lower rest)
  end.

Fixpoint strip_slashes (s : string) : string :=
  match s with
  | EmptyString => EmptyString
  | String c rest =>
      let r := strip_slashes rest in
      if String.eqb (String c r) "/" then EmptyString else String c r
  end.

Definition canon (s : string) : string := strip_slashes (lower s).

(** A route pattern matches a pathname (as the router has decoded it)
    when it is the catch-all ["*"], or when the two agree up to letter
    case and trailing slashes. *)
Definition matchPath (pattern pathname : string) : bool :=
  String.eqb pattern "*" || String.eqb (canon pattern) (canon pathname).

(** [<Routes>]: the element of the first route that matches, or nothing.
    In both trees the catch-all is listed last, which is also where the
    router's ranking puts it. *)
Fixpoint Routes (routes : list (string * element)) (pathname : string)
  : option element :=
  match routes with
  | [] => None
  | (pattern, e) :: rest =>
      if matchPath pattern pathname then Some e else Routes rest pathname
  end.

Definition public_routes : list (string * element) :=
  [ ("/login", Render LoginPage);
    ("/register", Render RegisterPage);
    ("*", Navigate "/login") ].

Definition protected_routes : list (string * element) :=
  [ ("/", Render DashboardPage);
    ("/upload", Render UploadPage);
    ("/risk", Render RiskAssessmentPage);
    ("/reports", Render ReportsPage);
    ("/settings", Render SettingsPage);
    ("*", Navigate "/") ].

(** The render function of [App]. *)
Definition App (isAuthenticated : bool) (pathname : string) : view :=
  if negb isAuthenticated then Public (Routes public_routes pathname)
  else Shell (Routes protected_routes pathname).

Definition shown (v : view) : option element :=
  match v with
  | Public e | Shell e => e
  end.

(** ** Mounting: renders and the effects committed after them *)

(** The running application: the session, the router's location, whether
    the root component has been mounted, and how many times the mount
    effect has run. *)
Record Browser : Type := mkBrowser {
  session : Session;
  pathname : string;
  mounted : bool;
  initializations : nat
}.

(** Opening the application at [path] over the persisted storage [ls]. *)
Definition boot (ls : gmap string string) (path : string) : Browser :=
  {| session := mount ls; pathname := path;
     mounted := false; initializations := 0 |}.

(** A render reads the state cell and the location; it runs no effect. *)
Definition render (b : Browser) : view :=
  App (isAuthenticated (session b)) (pathname b).

(** The commit that follows a render runs the pending effects, children
    first: a rendered [<Navigate replace>] replaces the location, and
    [useEffect(..., [])] of [App] runs after the first render only (one
    mount of the component, as in a production build). *)
Definition commit (b : Browser) : Browser :=
  let path' :=
    match shown (render b) with
    | Some (Navigate to) => to
    | _ => pathname b
    end in
  if mounted b then
    {| session := session b; pathname := path';
       mounted := true; initializations := initializations b |}
  else
    {| session := initialize (session b); pathname := path';
       mounted := true; initializations := S (initializations b) |}.

(** The route decision of the first frame. *)
Definition first_render (ls : gmap string string) (path : string) : view :=
  render (boot ls path).

(** The views of the first [n] frames. *)
Fixpoint frames (n : nat) (b : Browser) : list view :=
  match n with
  | O => []
  | S n' => render b :: frames n' (commit b)
  end.

(** ** The HTTP client and the world a handler runs in *)

(** The error a rejected request throws, as far as the handlers read it:
    [err.response?.data?.detail] and [err.message]. *)
Record AxiosError : Type := mkAxiosError {
  detail : Js.value;
  message : string
}.

Inductive Promise (A : Type) : Type :=
| Resolved (data : A)
| Rejected (err : AxiosError).

Arguments Resolved {A} data.
Arguments Rejected {A} err.

(** [Promise.all] of two promises. When both reject, which error is thrown
    depends on arrival order; every [catch] that follows a [Promise.all]
    here ignores the error. *)
Definition Promise_all {A B : Type} (p : Promise A) (q : Promise B)
  : Promise (A * B) :=
  match p, q with
  | Resolved a, Resolved b => Resolved (a, b)
  | Rejected e, _ => Rejected e
  | _, Rejected e => Rejected e
  end.

Record TokenPair : Type := mkTokenPair {
  access_token : string;
  refresh_token : string
}.

Record FinancialSummary : Type := mkFinancialSummary {
  total_revenue : Q;
  total_expenses : Q;
  net_profit : Q;
  profit_margin : Q;
  operating_cash_flow : Q;
  current_ratio : option Q;
  debt_to_equity : option Q;
  revenue_change : option Q;
  expense_change : option Q;
  profit_change : option Q;
  health_score : Q;
  health_status : string;
  period_label : string
}.

Record CashFlowPoint : Type := mkCashFlowPoint {
  period : string;
  net : Q
}.

Record CashFlow : Type := mkCashFlow {
  historical : option (list CashFlowPoint)
}.

Record RiskFactor : Type := mkRiskFactor {
  name : string;
  severity : string;
  factor_description : string
}.

Record Recommendation : Type := mkRecommendation {
  title : string;
  priority : string;
  description : string
}.

Record RiskData : Type := mkRiskData {
  overall_score : Q;
  liquidity_score : Q;
  solvency_score : Q;
  operational_score : Q;
  creditworthiness_score : Q;
  risk_level : string;
  risk_factors : list RiskFactor;
  recommendations : list Recommendation
}.

Record Report : Type := mkReport {
  report_id : Z;
  report_title : string;
  report_type : string;
  generated_at : string;
  status : string
}.

Record ReportList : Type := mkReportList {
  items : option (list Report)
}.

(** The requests the pages send, indexed by the type of [response.data]. *)
Inductive Request : Type -> Type :=
| PostAuthLogin (email password : string) : Request TokenPair
| PostAuthRegister (email password company_name industry_type : string)
  : Request unit
| GetFinancialSummary : Request FinancialSummary
| GetFinancialCashFlow (periods : nat) : Request CashFlow
| GetAnalysisRisk : Request RiskData
| GetReports : Request ReportList
| PostReportsGenerate (report_type : string) : Request unit.

(** The client of [services/api] is not among the sources. It is taken as
    a parameter: any function giving each request a settled promise. *)
Definition Api : Type := forall A : Type, Request A -> Promise A.

(** What a handler does that is visible outside its page. *)
Inductive Event : Type :=
| Sent {A : Type} (r : Request A)
| OnLogin (token refreshToken : string)
| NavigateTo (to : string)
| ConsoleError.

Record World (P : Type) : Type := mkWorld {
  w_session : Session;
  w_location : string;
  w_trace : list Event;
  w_page : P
}.

Arguments mkWorld {P} _ _ _ _.
Arguments w_session {P} _.
Arguments w_location {P} _.
Arguments w_trace {P} _.
Arguments w_page {P} _.

(** Handlers are state transformers over the world. *)
Definition M (P A : Type) : Type := World P -> A * World P.

#[export] Instance M_ret {P : Type} : MRet (M P) :=
  fun A (a : A) (w : World P) => (a, w).

#[export] Instance M_bind {P : Type} : MBind (M P) :=
  fun A B (f : A -> M P B) (m : M P A) (w : World P) =>
    let '(a, w') := m w in f a w'.

Definition exec {P A : Type} (m : M P A) (w : World P) : World P :=
  snd (m w).

Definition get_page {P : Type} : M P P :=
  fun w => (w_page w, w).

Definition set_page {P : Type} (f : P -> P) : M P unit :=
  fun w => (tt, mkWorld (w_session w) (w_location w) (w_trace w)
                        (f (w_page w))).

Definition emit {P : Type} (e : Event) : M P unit :=
  fun w => (tt, mkWorld (w_session w) (w_location w) (w_trace w ++ [e])
                        (w_page w)).

(** [await api.post(...)] / [await api.get(...)]: the request goes out and
    the promise settles. *)
Definition await {P A : Type} (api : Api) (r : Request A) : M P (Promise A) :=
  emit (Sent r);; mret (api A r).

(** The [onLogin] prop both forms receive is [handleLogin] of [App]. *)
Definition call_handleLogin {P : Type} (token refreshToken : string)
  : M P unit :=
  fun w => (tt, mkWorld (handleLogin token refreshToken (w_session w))
                        (w_location w) (w_trace w) (w_page w)).

Definition onLogin {P : Type} (token refreshToken : string) : M P unit :=
  emit (OnLogin token refreshToken);;
  call_handleLogin token refreshToken.

(** [navigate(to)] of the router. *)
Definition set_location {P : Type} (to : string) : M P unit :=
  fun w => (tt, mkWorld (w_session w) to (w_trace w) (w_page w)).

Definition navigate {P : Type} (to : string) : M P unit :=
  emit (NavigateTo to);;
  set_location to.

Definition console_error {P : Type} : M P unit :=
  emit ConsoleError.

(** The [onLogout] prop of the shell is [handleLogout] of [App]. *)
Definition onLogout {P : Type} : M P unit :=
  fun w => (tt, mkWorld (handleLogout (w_session w))
                        (w_location w) (w_trace w) (w_page w)).

(** What a form shows above its fields: nothing, the alert with its
    child, or nothing at all because rendering the child threw. *)
Inductive AlertView : Type :=
| NoAlert
| Alert (child : Js.value)
| RenderError.

(** ** [pages/Login.tsx] *)

Module Login.

Record State : Type := mkState {
  email : string;
  password : string;
  showPassword : bool;
  error : Js.value;
  loading : bool
}.

(** [useState('')], [useState(false)]. *)
Definition init : State :=
  {| email := ""; password := ""; showPassword := false;
     error := Js.Str ""; loading := false |}.

Definition setError (e : Js.value) : M State unit :=
  set_page (fun st =>
    {| email := email st; password := password st;
       showPassword := showPassword st; error := e; loading := loading st |}).

Definition setLoading (b : bool) : M State unit :=
  set_page (fun st =>
    {| email := email st; password := password st;
       showPassword := showPassword st; error := error st; loading := b |}).

Definition handleSubmit (api : Api) : M State unit :=
  st ← get_page;
  setError (Js.Str "");;
  setLoading true;;
  response ← await api (PostAuthLogin (email st) (password st));
  match response with
  | Resolved data =>
      onLogin (access_token data) (refresh_token data);;
      navigate "/"
  | Rejected err =>
      setError (Js.or (detail err) (Js.Str "Login failed. Please try again."))
  end;;
  setLoading false.

(** [{error && (<Alert severity="error">{error}</Alert>)}]. *)
Definition alert (st : State) : AlertView :=
  if Js.truthy (error st) then
    if Js.valid_child (error st) then Alert (error st) else RenderError
  else NoAlert.

End Login.

(** ** [pages/Register.tsx] *)

Module Register.

Record FormData : Type := mkFormData {
  email : string;
  password : string;
  confirmPassword : string;
  company_name : string;
  industry_type : string
}.

Record State : Type := mkState {
  formData : FormData;
  error : string;
  loading : bool
}.

Definition init : State :=
  {| formData :=
       {| email := ""; password := ""; confirmPassword := "";
          company_name := ""; industry_type := "services" |};
     error := ""; loading := false |}.

Definition setError (e : string) : M State unit :=
  set_page (fun st =>
    {| formData := formData st; error := e; loading := loading st |}).

Definition setLoading (b : bool) : M State unit :=
  set_page (fun st =>
    {| formData := formData st; error := error st; loading := b |}).

(** [err.response?.data?.detail || err.message || 'Registration failed...'],
    then [typeof errorMessage === 'string' ? errorMessage
    : JSON.stringify(errorMessage)]. *)
Definition errorMessage (err : AxiosError) : string :=
  Js.to_display
    (Js.or (Js.or (detail err) (Js.Str (message err)))
           (Js.Str "Registration failed. Please try again.")).

Definition on_error (err : AxiosError) : M State unit :=
  console_error;;
  setError (errorMessage err).

Definition handleSubmit (api : Api) : M State unit :=
  st ← get_page;
  let form := formData st in
  setError "";;
  if negb (String.eqb (password form) (confirmPassword form)) then
    setError "Passwords do not match"
  else
    setLoading true;;
    registered ← await api (PostAuthRegister (email form) (password form)
                              (company_name form) (industry_type form));
    match registered with
    | Resolved _ =>
        loginResponse ← await api (PostAuthLogin (email form) (password form));
        match loginResponse with
        | Resolved data =>
            onLogin (access_token data) (refresh_token data);;
            navigate "/"
        | Rejected err => on_error err
        end
    | Rejected err => on_error err
    end;;
    setLoading false.

Definition setFormData (form : FormData) : M State unit :=
  set_page (fun st =>
    {| formData := form; error := error st; loading := loading st |}).

(** [{ ...formData, [field]: value }]. The form only passes the five field
    names; any other name would add a property that nothing reads. *)
Definition with_field (form : FormData) (field value : string) : FormData :=
  if String.eqb field "email" then
    {| email := value; password := password form;
       confirmPassword := confirmPassword form;
       company_name := company_name form;
       industry_type := industry_type form |}
  else if String.eqb field "password" then
    {| email := email form; password := value;
       confirmPassword := confirmPassword form;
       company_name := company_name form;
       industry_type := industry_type form |}
  else if String.eqb field "confirmPassword" then
    {| email := email form; password := password form;
       confirmPassword := value;
       company_name := company_name form;
       industry_type := industry_type form |}
  else if String.eqb field "company_name" then
    {| email := email form; password := password form;
       confirmPassword := confirmPassword form;
       company_name := value;
       industry_type := industry_type form |}
  else if String.eqb field "industry_type" then
    {| email := email form; password := password form;
       confirmPassword := confirmPassword form;
       company_name := company_name form;
       industry_type := value |}
  else form.

Definition handleChange (field value : string) : M State unit :=
  st ← get_page;
  setFormData (with_field (formData st) field value).

(** [{error && (<Alert severity="error">{error}</Alert>)}]; here the cell
    only ever holds a string. *)
Definition alert (st : State) : AlertView :=
  if Js.truthy_string (error st) then Alert (Js.Str (error st)) else NoAlert.

End Register.

(** ** Pages that load data *)

(** A data page shows a spinner while [loading], then its content. None
    of them has an error screen. *)
Inductive Screen (D : Type) : Type :=
| Spinner
| Content (data : D).

Arguments Spinner {D}.
Arguments Content {D} data.

(** *** [pages/Dashboard.tsx] *)

Module Dashboard.

Record State : Type := mkState {
  loading : bool;
  summary : option FinancialSummary;
  cashFlowData : list CashFlowPoint
}.

Definition init : State :=
  {| loading := true; summary := None; cashFlowData := [] |}.

Definition setSummary (s : FinancialSummary) : M State unit :=
  set_page (fun st =>
    {| loading := loading st; summary := Some s;
       cashFlowData := cashFlowData st |}).

Definition setCashFlowData (d : list CashFlowPoint) : M State unit :=
  set_page (fun st =>
    {| loading := loading st; summary := summary st; cashFlowData := d |}).

Definition setLoading (b : bool) : M State unit :=
  set_page (fun st =>
    {| loading := b; summary := summary st;
       cashFlowData := cashFlowData st |}).

Definition mockSummary : FinancialSummary :=
  {| total_revenue := 1250000;
     total_expenses := 980000;
     net_profit := 270000;
     profit_margin := 21.6;
     operating_cash_flow := 185000;
     current_ratio := Some 1.85%Q;
     debt_to_equity := Some 0.65%Q;
     revenue_change := Some 15.3%Q;
     expense_change := Some 8.2%Q;
     profit_change := Some 28.5%Q;
     health_score := 78;
     health_status := "healthy";
     period_label := "Jan 2026" |}.

Definition mockCashFlow : list CashFlowPoint :=
  [ {| period := "Aug"; net := 120000 |};
    {| period := "Sep"; net := 145000 |};
    {| period := "Oct"; net := 132000 |};
    {| period := "Nov"; net := 168000 |};
    {| period := "Dec"; net := 155000 |};
    {| period := "Jan"; net := 185000 |} ].

Definition loadDashboardData (api : Api) : M State unit :=
  summaryRes ← await api GetFinancialSummary;
  cashFlowRes ← await api (GetFinancialCashFlow 6);
  match Promise_all summaryRes cashFlowRes with
  | Resolved (summaryData, cashFlowResData) =>
      setSummary summaryData;;
      setCashFlowData (default [] (historical cashFlowResData))
  | Rejected _ =>
      setSummary mockSummary;;
      setCashFlowData mockCashFlow
  end;;
  setLoading false.

Definition render (st : State)
  : Screen (option FinancialSummary * list CashFlowPoint) :=
  if loading st then Spinner else Content (summary st, cashFlowData st).

End Dashboard.

(** *** [pages/RiskAssessment.tsx] *)

Module RiskAssessment.

Record State : Type := mkState {
  loading : bool;
  riskData : option RiskData
}.

Definition init : State := {| loading := true; riskData := None |}.

Definition setRiskData (d : RiskData) : M State unit :=
  set_page (fun st => {| loading := loading st; riskData := Some d |}).

Definition setLoading (b : bool) : M State unit :=
  set_page (fun st => {| loading := b; riskData := riskData st |}).

Definition mockRiskData : RiskData :=
  {| overall_score := 45;
     liquidity_score := 38;
     solvency_score := 52;
     operational_score := 41;
     creditworthiness_score := 72;
     risk_level := "medium";
     risk_factors :=
       [ {| name := "Low Current Ratio"; severity := "high";
            factor_description :=
              "Current assets below short-term obligations" |};
         {| name := "High Receivables"; severity := "medium";
            factor_description :=
              "Days receivable above industry average" |};
         {| name := "Seasonal Revenue"; severity := "low";
            factor_description :=
              "Revenue concentration in specific quarters" |} ];
     recommendations :=
       [ {| title := "Improve Collection"; priority := "high";
            description := "Reduce accounts receivable days" |};
         {| title := "Build Cash Reserve"; priority := "medium";
            description := "Maintain 3-month operating expenses" |} ] |}.

Definition loadRiskData (api : Api) : M State unit :=
  response ← await api GetAnalysisRisk;
  match response with
  | Resolved data => setRiskData data
  | Rejected _ => setRiskData mockRiskData
  end;;
  setLoading false.

Definition render (st : State) : Screen (option RiskData) :=
  if loading st then Spinner else Content (riskData st).

End RiskAssessment.

(** *** [pages/Reports.tsx] *)

Module Reports.

Record State : Type := mkState {
  loading : bool;
  reports : list Report;
  dialogOpen : bool;
  generating : bool;
  selectedType : string
}.

Definition init : State :=
  {| loading := true; reports := []; dialogOpen := false;
     generating := false; selectedType := "financial_health" |}.

Definition setReports (l : list Report) : M State unit :=
  set_page (fun st =>
    {| loading := loading st; reports := l; dialogOpen := dialogOpen st;
       generating := generating st; selectedType := selectedType st |}).

Definition setLoading (b : bool) : M State unit :=
  set_page (fun st =>
    {| loading := b; reports := reports st; dialogOpen := dialogOpen st;
       generating := generating st; selectedType := selectedType st |}).

Definition mockReports : list Report :=
  [ {| report_id := 1; report_title := "Financial Health Report - Jan 2026";
       report_type := "financial_health"; generated_at := "2026-01-15";
       status := "completed" |};
    {| report_id := 2; report_title := "Risk Assessment Report";
       report_type := "risk_assessment"; generated_at := "2026-01-10";
       status := "completed" |};
    {| report_id := 3; report_title := "Investor Ready Report";
       report_type := "investor_ready"; generated_at := "2026-01-05";
       status := "completed" |} ].

Definition loadReports (api : Api) : M State unit :=
  response ← await api GetReports;
  match response with
  | Resolved data => setReports (default [] (items data))
  | Rejected _ => setReports mockReports
  end;;
  setLoading false.

Definition render (st : State) : Screen (list Report) :=
  if loading st then Spinner else Content (reports st).

Definition setDialogOpen (b : bool) : M State unit :=
  set_page (fun st =>
    {| loading := loading st; reports := reports st; dialogOpen := b;
       generating := generating st; selectedType := selectedType st |}).

Definition setGenerating (b : bool) : M State unit :=
  set_page (fun st =>
    {| loading := loading st; reports := reports st;
       dialogOpen := dialogOpen st; generating := b;
       selectedType := selectedType st |}).

Definition setSelectedType (t : string) : M State unit :=
  set_page (fun st =>
    {| loading := loading st; reports := reports st;
       dialogOpen := dialogOpen st; generating := generating st;
       selectedType := t |}).

(** [loadReports()] is called without [await]: its request goes out at
    once and its updates land on cells that [generateReport] does not
    write afterwards, so the state once everything has settled is the one
    computed here. *)
Definition generateReport (api : Api) : M State unit :=
  st ← get_page;
  setGenerating true;;
  response ← await api (PostReportsGenerate (selectedType st));
  match response with
  | Resolved _ =>
      setDialogOpen false;;
      loadReports api
  | Rejected _ => console_error
  end;;
  setGenerating false.

End Reports.

(** *** [pages/Upload.tsx] *)

Module Upload.

Inductive Status : Type := pending | uploading | success | error.

Record UploadedFile : Type := mkUploadedFile {
  id : option Z;
  name : string;
  status : Status;
  progress : Z;
  file_error : option Js.value
}.

(** A dropped [File]; the handler reads its [name] and sends the rest. *)
Record File : Type := mkFile {
  file_name : string;
  file_size : Z
}.

Record State : Type := mkState {
  files : list UploadedFile;
  page_error : string
}.

Definition init : State := {| files := []; page_error := "" |}.

(** What [axios] reports while a request body is sent. *)
Record ProgressEvent : Type := mkProgressEvent {
  loaded : Z;
  total : option Z
}.

(** [POST /api/upload] with one file: the progress events delivered while
    the request is in flight, then the settled promise with
    [response.data.id]. Like the client itself it is a parameter. *)
Definition UploadApi : Type := File -> list ProgressEvent * Promise Z.

(** [Math.round(n / d)] for integers [n] and [d <> 0]: the nearest
    integer, halves upwards. Byte counts are integers far below [2^53], so
    the quotient is computed without a rounding that could cross a half. *)
Definition Math_round_div (n d : Z) : Z := ((2 * n + d) / (2 * d))%Z.

(** [Math.round((progressEvent.loaded * 100) / (progressEvent.total || 1))]. *)
Definition progress_of (ev : ProgressEvent) : Z :=
  let t := match total ev with
           | Some t => if Z.eqb t 0 then 1%Z else t
           | None => 1%Z
           end in
  Math_round_div (loaded ev * 100) t.

Definition setError (e : string) : M State unit :=
  set_page (fun st => {| files := files st; page_error := e |}).

(** [setFiles(prev => f(prev))]. *)
Definition setFiles (f : list UploadedFile -> list UploadedFile)
  : M State unit :=
  set_page (fun st => {| files := f (files st); page_error := page_error st |}).

(** [setFiles(prev => prev.map((f, idx) => idx === fileIndex ? g(f) : f))]. *)
Definition update (fileIndex : nat) (g : UploadedFile -> UploadedFile)
  : M State unit :=
  setFiles (alter g fileIndex).

Definition newFile (f : File) : UploadedFile :=
  {| id := None; name := file_name f; status := pending; progress := 0;
     file_error := None |}.

Definition mark_uploading (f : UploadedFile) : UploadedFile :=
  {| id := id f; name := name f; status := uploading; progress := 30;
     file_error := file_error f |}.

Definition mark_progress (p : Z) (f : UploadedFile) : UploadedFile :=
  {| id := id f; name := name f; status := status f; progress := p;
     file_error := file_error f |}.

Definition mark_success (response_id : Z) (f : UploadedFile) : UploadedFile :=
  {| id := Some response_id; name := name f; status := success;
     progress := 100; file_error := file_error f |}.

Definition mark_error (err : AxiosError) (f : UploadedFile) : UploadedFile :=
  {| id := id f; name := name f; status := error; progress := progress f;
     file_error := Some (Js.or (detail err) (Js.Str "Upload failed")) |}.

Fixpoint report_progress (fileIndex : nat) (events : list ProgressEvent)
  : M State unit :=
  match events with
  | [] => mret tt
  | ev :: rest =>
      update fileIndex (mark_progress (progress_of ev));;
      report_progress fileIndex rest
  end.

(** The body of the [for] loop, from index [i] on. [filesLength] is
    [files.length] as the callback's closure holds it. *)
Fixpoint upload_each (api : UploadApi) (filesLength i : nat)
    (acceptedFiles : list File) : M State unit :=
  match acceptedFiles with
  | [] => mret tt
  | file :: rest =>
      let fileIndex := filesLength + i in
      update fileIndex mark_uploading;;
      report_progress fileIndex (fst (api file));;
      match snd (api file) with
      | Resolved response_id => update fileIndex (mark_success response_id)
      | Rejected err => update fileIndex (mark_error err)
      end;;
      upload_each api filesLength (S i) rest
  end.

Definition onDrop (api : UploadApi) (filesLength : nat)
    (acceptedFiles : list File) : M State unit :=
  setError "";;
  setFiles (fun prev => prev ++ map newFile acceptedFiles);;
  upload_each api filesLength 0 acceptedFiles.

(** The record a dropped file ends with when the closure's length is the
    list's length: what the loop writes over [newFile f]. *)
Definition settled (api : UploadApi) (f : File) : UploadedFile :=
  let started := mark_uploading (newFile f) in
  let reported :=
    fold_left (fun u ev => mark_progress (progress_of ev) u)
              (fst (api f)) started in
  match snd (api f) with
  | Resolved response_id => mark_success response_id reported
  | Rejected err => mark_error err reported
  end.

(** The world with the page's file list replaced. *)
Definition with_files (w : World State) (l : list UploadedFile)
  : World State :=
  {| w_session := w_session w; w_location := w_location w;
     w_trace := w_trace w;
     w_page := {| files := l; page_error := page_error (w_page w) |} |}.

(** What the progress reports of one request leave in a record. *)
Definition reported (events : list ProgressEvent) (u : UploadedFile)
  : UploadedFile :=
  fold_left (fun u ev => mark_progress (progress_of ev) u) events u.

(** What one turn of the loop does to the record it addresses. *)
Definition turn (api : UploadApi) (f : File) (u : UploadedFile)
  : UploadedFile :=
  let r := reported (fst (api f)) (mark_uploading u) in
  match snd (api f) with
  | Resolved response_id => mark_success response_id r
  | Rejected err => mark_error err r
  end.

End Upload.

(** ** The shell ([components/Layout.tsx]) *)

Module Layout.

Record MenuItem : Type := mkMenuItem {
  text : string;
  path : string
}.

(** The entries of the side navigation, with their translation keys. *)
Definition menuItems : list MenuItem :=
  [ {| text := "dashboard"; path := "/" |};
    {| text := "upload"; path := "/upload" |};
    {| text := "riskAssessment"; path := "/risk" |};
    {| text := "reports"; path := "/reports" |};
    {| text := "settings"; path := "/settings" |} ].

(** [anchorEl] is kept as whether the account menu has an anchor. *)
Record State : Type := mkState {
  mobileOpen : bool;
  anchorEl : bool
}.

Definition init : State := {| mobileOpen := false; anchorEl := false |}.

Definition setMobileOpen (b : bool) : M State unit :=
  set_page (fun st => {| mobileOpen := b; anchorEl := anchorEl st |}).

Definition setAnchorEl (b : bool) : M State unit :=
  set_page (fun st => {| mobileOpen := mobileOpen st; anchorEl := b |}).

(** [selected={location.pathname === item.path}]. *)
Definition selected (pathname : string) (item : MenuItem) : bool :=
  String.eqb pathname (path item).

(** [onClick] of a navigation entry. *)
Definition onItemClick (isMobile : bool) (item : MenuItem) : M State unit :=
  navigate (path item);;
  if isMobile then setMobileOpen false else mret tt.

(** [onClick] of the menu button in the top bar. *)
Definition onMenuButtonClick : M State unit :=
  st ← get_page;
  setMobileOpen (negb (mobileOpen st)).

(** [open={isMobile ? mobileOpen : true}] of the drawer. *)
Definition drawerOpen (isMobile : bool) (st : State) : bool :=
  if isMobile then mobileOpen st else true.

(** [onClick={onLogout}] of the account menu's entry. *)
Definition onLogoutClick : M State unit := onLogout.

End Layout.

(** ** Auxiliary notions used by the statements *)

(** What the reachable sessions have in common: the state cell agrees
    with the truthiness of the stored access token, a stored access token
    is never the empty string, and the two entries come and go together. *)
Definition session_ok (s : Session) : Prop :=
  isAuthenticated s = Js.truthy_nullable (accessToken s)
  /\ (forall t, accessToken s = Some t -> Js.truthy_string t = true)
  /\ (is_Some (accessToken s) <-> is_Some (refreshToken s)).

(** The calls of the [onLogin] prop recorded in a trace. *)
Definition onLogin_calls (trace : list Event) : list (string * string) :=
  omap (fun e => match e with
                 | OnLogin a r => Some (a, r)
                 | _ => None
                 end) trace.

(** The requests recorded in a trace, by their method and path. *)
Definition endpoint {A : Type} (r : Request A) : string :=
  match r with
  | PostAuthLogin _ _ => "POST /auth/login"
  | PostAuthRegister _ _ _ _ => "POST /auth/register"
  | GetFinancialSummary => "GET /api/financial/summary"
  | GetFinancialCashFlow _ => "GET /api/financial/cash-flow"
  | GetAnalysisRisk => "GET /api/analysis/risk"
  | GetReports => "GET /api/reports"
  | PostReportsGenerate _ => "POST /api/reports/generate"
  end.

Definition requests_sent (trace : list Event) : list string :=
  omap (fun e => match e with
                 | Sent r => Some (endpoint r)
                 | _ => None
                 end) trace.

Definition is_rejected {A : Type} (p : Promise A) : bool :=
  match p with
  | Rejected _ => true
  | Resolved _ => false
  end.

(** Whether the last [login] or [logout] of a sequence is a [login]. *)
Definition signed_in_after (ops : list op) : bool :=
  fold_left (fun b o => match o with
                        | Login _ _ => true
                        | Logout => false
                        | Initialize => b
                        end) ops false.


(** The double quote, for JSON texts. *)
Definition dquote : string :=
  String (Ascii.Ascii false true false false false true false false) "".

(** [422] from the server's input validation: the detail is an array of
    objects. *)
Definition validation_error : AxiosError :=
  {| detail :=
       Js.Object
         (String.concat dquote
            ["[{"; "msg"; ":"; "value is not a valid email address"; "}]"]);
     message := "Request failed with status code 422" |}.

(** The server refuses every request with that validation error. *)
Definition rejects_input : Api := fun A _ => Rejected validation_error.

(** *** Sample servers and worlds, for the examples *)

(** No request gets through: every promise rejects with a network error
    that carries no response. *)
Definition offline : Api :=
  fun A _ => Rejected {| detail := Js.Undefined; message := "Network Error" |}.

(** Accounts can be created and signed in; the data endpoints are down. *)
Definition auth_only : Api :=
  fun A r =>
    match r in Request T return Promise T with
    | PostAuthLogin _ _ =>
        Resolved {| access_token := "tok123"; refresh_token := "ref456" |}
    | PostAuthRegister _ _ _ _ => Resolved tt
    | _ => Rejected {| detail := Js.Undefined; message := "Network Error" |}
    end.

(** Accounts can be created, but every sign-in is refused. *)
Definition register_only : Api :=
  fun A r =>
    match r in Request T return Promise T with
    | PostAuthRegister _ _ _ _ => Resolved tt
    | _ => Rejected {| detail := Js.Str "Incorrect email or password";
                       message := "Request failed with status code 401" |}
    end.

(** A signed-out visitor on [path], looking at a page in state [st]. *)
Definition visitor {P : Type} (path : string) (st : P) : World P :=
  {| w_session := initial; w_location := path; w_trace := []; w_page := st |}.

Definition filled_login : Login.State :=
  {| Login.email := "owner@example.com"; Login.password := "hunter2";
     Login.showPassword := false; Login.error := Js.Str "";
     Login.loading := false |}.

Definition filled_register (confirm : string) : Register.State :=
  {| Register.formData :=
       {| Register.email := "owner@example.com";
          Register.password := "hunter2";
          Register.confirmPassword := confirm;
          Register.company_name := "Acme Traders";
          Register.industry_type := "retail" |};
     Register.error := ""; Register.loading := false |}.

(** * Properties *)

(** ** Storage and truthiness *)

Lemma truthy_string_spec (s : string) :
  Js.truthy_string s = true <-> s <> "".
Proof.
  unfold Js.truthy_string. rewrite negb_true_iff. apply String.eqb_neq.
Qed.

Lemma truthy_nullable_Some_nonempty (s : string) :
  s <> "" -> Js.truthy_nullable (Some s) = true.
Proof. intros H. simpl. by apply truthy_string_spec. Qed.

Lemma accessToken_handleLogin (a r : string) (s : Session) :
  accessToken (handleLogin a r s) = Some a.
Proof.
  unfold accessToken, handleLogin, Storage.getItem, Storage.setItem. simpl.
  rewrite lookup_insert_ne by done. apply lookup_insert_eq.
Qed.

Lemma refreshToken_handleLogin (a r : string) (s : Session) :
  refreshToken (handleLogin a r s) = Some r.
Proof.
  unfold refreshToken, handleLogin, Storage.getItem, Storage.setItem. simpl.
  apply lookup_insert_eq.
Qed.

Lemma accessToken_handleLogout (s : Session) :
  accessToken (handleLogout s) = None.
Proof.
  unfold accessToken, handleLogout, Storage.getItem, Storage.removeItem. simpl.
  rewrite lookup_delete_ne by done. apply lookup_delete_eq.
Qed.

Lemma refreshToken_handleLogout (s : Session) :
  refreshToken (handleLogout s) = None.
Proof.
  unfold refreshToken, handleLogout, Storage.getItem, Storage.removeItem. simpl.
  apply lookup_delete_eq.
Qed.

Lemma localStorage_initialize (s : Session) :
  localStorage (initialize s) = localStorage s.
Proof. reflexivity. Qed.

(** ** The session invariant *)

Lemma session_ok_initial : session_ok initial.
Proof.
  repeat split; unfold accessToken, refreshToken, Storage.getItem; simpl.
  - intros t. rewrite lookup_empty. discriminate.
  - rewrite lookup_empty. by intros [? ?].
  - rewrite lookup_empty. by intros [? ?].
Qed.

Lemma session_ok_step (s : Session) (o : op) :
  valid_op o = true -> session_ok s -> session_ok (step s o).
Proof.
  intros Hv (Hauth & Hne & Hpair). destruct o as [|a r|]; simpl in *.
  - (* initialize: the cell is recomputed from the stored token *)
    repeat split; try apply Hpair; auto.
  - (* login *)
    apply andb_true_iff in Hv as [Ha _].
    unfold session_ok.
    rewrite accessToken_handleLogin, refreshToken_handleLogin. simpl.
    repeat split; eauto. congruence.
  - (* logout *)
    unfold session_ok.
    rewrite accessToken_handleLogout, refreshToken_handleLogout. simpl.
    repeat split; try discriminate; by intros [? ?].
Qed.

Lemma session_ok_run (ops : list op) (s : Session) :
  forallb valid_op ops = true -> session_ok s -> session_ok (run ops s).
Proof.
  revert s. induction ops as [|o ops IH]; intros s Hv Hs; simpl in *.
  - exact Hs.
  - apply andb_true_iff in Hv as [Ho Hops].
    apply IH; [exact Hops|]. by apply session_ok_step.
Qed.

Lemma run_snoc (ops : list op) (o : op) (s : Session) :
  run (ops ++ [o]) s = step (run ops s) o.
Proof. unfold run. by rewrite fold_left_app. Qed.

(** Reachable sessions are exactly the results of valid runs. *)
Lemma reachable_run (s : Session) :
  reachable s <->
  exists ops : list op, forallb valid_op ops = true /\ s = run ops initial.
Proof.
  split.
  - induction 1 as [|s o _ (ops & Hv & ->) Ho].
    + by exists [].
    + exists (ops ++ [o]). rewrite run_snoc, forallb_app. simpl.
      by rewrite Hv, Ho.
  - intros (ops & Hv & ->). induction ops as [|o ops IH] using rev_ind.
    + constructor.
    + rewrite forallb_app in Hv. simpl in Hv.
      apply andb_true_iff in Hv as [Hops Ho].
      apply andb_true_iff in Ho as [Ho _].
      rewrite run_snoc. constructor; auto.
Qed.

(** C1. In every state reached from the initial state (empty persisted
    storage) by a sequence of [initialize], [login] with two non-empty
    strings and [logout], [isAuthenticated] is true exactly when an access
    token is stored, and the access token and the refresh token are both
    stored or both absent. *)
Theorem C1_session_invariant (ops : list op) :
  forallb valid_op ops = true ->
  let s := run ops initial in
  (isAuthenticated s = true <-> accessToken s <> None)
  /\ (is_Some (accessToken s) <-> is_Some (refreshToken s)).
Proof.
  intros Hv s.
  destruct (session_ok_run ops initial Hv session_ok_initial)
    as (Hauth & Hne & Hpair).
  fold s in Hauth, Hne, Hpair.
  split; [|exact Hpair].
  rewrite Hauth. destruct (accessToken s) as [t|] eqn:Ht; simpl.
  - rewrite (Hne t eq_refl). split; [discriminate | reflexivity].
  - split; [discriminate | congruence].
Qed.

Lemma C1_session_invariant_witness :
  let s := run [Initialize; Login "tok123" "ref456"; Initialize;
                Logout; Login "a" "r"] initial in
  (isAuthenticated s = true <-> accessToken s <> None)
  /\ (is_Some (accessToken s) <-> is_Some (refreshToken s)).
Proof.
  apply (C1_session_invariant
           [Initialize; Login "tok123" "ref456"; Initialize;
            Logout; Login "a" "r"]).
  reflexivity.
Defined.

(** ** Reload round trip *)

Lemma reload_storage (s : Session) :
  localStorage (reload s) = localStorage s.
Proof. reflexivity. Qed.

Lemma reload_isAuthenticated (s : Session) :
  isAuthenticated (reload s) = Js.truthy_nullable (accessToken s).
Proof. reflexivity. Qed.

(** C4. After [login(a, r)] with non-empty [a] and [r], re-running
    [initialize] on a fresh mount over the same persisted storage gives
    [isAuthenticated = true], and the stored tokens are still [a] and
    [r]. *)
Theorem C4_login_reload_roundtrip (a r : string) (s : Session) :
  a <> "" -> r <> "" ->
  let s' := reload (handleLogin a r s) in
  isAuthenticated s' = true
  /\ accessToken s' = Some a
  /\ refreshToken s' = Some r
  /\ localStorage s' = localStorage (handleLogin a r s).
Proof.
  intros Ha Hr s'.
  assert (Hacc : accessToken s' = Some a).
  { unfold s', accessToken. rewrite reload_storage.
    apply (accessToken_handleLogin a r s). }
  repeat split.
  - unfold s'. rewrite reload_isAuthenticated, accessToken_handleLogin.
    by apply truthy_nullable_Some_nonempty.
  - exact Hacc.
  - unfold s', refreshToken. rewrite reload_storage.
    apply (refreshToken_handleLogin a r s).
Qed.

Lemma C4_login_reload_roundtrip_witness :
  let s' := reload (handleLogin "tok123" "ref456" initial) in
  isAuthenticated s' = true
  /\ accessToken s' = Some "tok123"
  /\ refreshToken s' = Some "ref456"
  /\ localStorage s' = localStorage (handleLogin "tok123" "ref456" initial).
Proof.
  apply (C4_login_reload_roundtrip "tok123" "ref456" initial); discriminate.
Defined.


(** ** Logout *)

Lemma handleLogout_idempotent (s : Session) :
  handleLogout (handleLogout s) = handleLogout s.
Proof.
  unfold handleLogout, Storage.removeItem. simpl. f_equal.
  rewrite (delete_delete (delete "access_token" (localStorage s))
             "access_token" "refresh_token").
  by rewrite !delete_delete_eq.
Qed.

Lemma handleLogout_logged_out (s : Session) :
  isAuthenticated s = false ->
  accessToken s = None ->
  refreshToken s = None ->
  handleLogout s = s.
Proof.
  destruct s as [ls auth]. unfold accessToken, refreshToken, Storage.getItem.
  simpl. intros -> Ha Hr.
  unfold handleLogout, Storage.removeItem. simpl. f_equal.
  rewrite (delete_id ls "access_token") by exact Ha.
  by apply delete_id.
Qed.

(** C8. [logout] is idempotent: run twice it gives the state one run
    gives, and on a session that is already logged out (not authenticated,
    neither token stored) it changes nothing. *)
Theorem C8_logout_idempotent (s : Session) :
  handleLogout (handleLogout s) = handleLogout s
  /\ (isAuthenticated s = false ->
      accessToken s = None ->
      refreshToken s = None ->
      handleLogout s = s).
Proof.
  split; [apply handleLogout_idempotent | apply handleLogout_logged_out].
Qed.

Lemma C8_logout_idempotent_witness :
  handleLogout (handleLogout initial) = handleLogout initial
  /\ handleLogout initial = initial.
Proof.
  destruct (C8_logout_idempotent initial) as [Htwice Hnoop].
  split; [exact Htwice | apply Hnoop; reflexivity].
Defined.

(** ** An empty stored token *)

(** C9. When the stored [access_token] is the empty string, [initialize]
    sets [isAuthenticated] to false, as it does when no token is stored,
    although the stored value is not null. *)
Theorem C9_empty_token_not_authenticated (s : Session) :
  accessToken s = Some "" ->
  isAuthenticated (initialize s) = false
  /\ accessToken (initialize s) <> None.
Proof.
  intros H. unfold initialize, accessToken in *. simpl. rewrite H.
  split; [reflexivity | discriminate].
Qed.

Lemma C9_empty_token_not_authenticated_witness :
  let s := mount {[ "access_token" := "" ]} in
  isAuthenticated (initialize s) = false
  /\ accessToken (initialize s) <> None.
Proof.
  apply (C9_empty_token_not_authenticated (mount {[ "access_token" := "" ]})).
  reflexivity.
Defined.

(** ** The route guard *)

Lemma matchPath_star (path : string) : matchPath "*" path = true.
Proof. reflexivity. Qed.

Lemma matchPath_eqb (pattern path c : string) :
  pattern <> "*" -> canon pattern = c ->
  matchPath pattern path = String.eqb c (canon path).
Proof.
  intros Hne <-. unfold matchPath.
  destruct (String.eqb_spec pattern "*"); [contradiction | reflexivity].
Qed.










Ltac matchPath_to_eqb :=
  repeat match goal with
         | |- context [matchPath "*" ?q] => rewrite (matchPath_star q)
         | |- context [matchPath ?p ?q] =>
             let c := eval vm_compute in (canon p) in
             rewrite (matchPath_eqb p q c) by first [discriminate | reflexivity]
         end.

Ltac route_cases :=
  cbv [App public_routes protected_routes Routes negb];
  matchPath_to_eqb;
  repeat match goal with
         | |- context [String.eqb ?p ?q] =>
             destruct (String.eqb_spec p q); try congruence
         end.

Lemma App_public (path : string) :
  App false path =
  Public (Some (if decide (canon path = "/login") then Render LoginPage
                else if decide (canon path = "/register")
                     then Render RegisterPage
                else Navigate "/login")).
Proof.
  route_cases; repeat case_decide; congruence.
Qed.

Lemma App_protected (path : string) :
  App true path =
  Shell (Some (if decide (canon path = "") then Render DashboardPage
               else if decide (canon path = "/upload") then Render UploadPage
               else if decide (canon path = "/risk")
                    then Render RiskAssessmentPage
               else if decide (canon path = "/reports") then Render ReportsPage
               else if decide (canon path = "/settings")
                    then Render SettingsPage
               else Navigate "/")).
Proof.
  route_cases; repeat case_decide; congruence.
Qed.




(** Following a redirect of either tree lands on a rendered page. *)
Lemma redirect_lands (auth : bool) (path to : string) :
  shown (App auth path) = Some (Navigate to) ->
  exists pg : Page, shown (App auth to) = Some (Render pg).
Proof.
  destruct auth.
  - rewrite App_protected. cbn [shown]. repeat case_decide; try discriminate.
    intros [= <-]. by exists DashboardPage.
  - rewrite App_public. cbn [shown]. repeat case_decide; try discriminate.
    intros [= <-]. by exists LoginPage.
Qed.

(** Empty storage, [initialize], then a request for ["/upload"]: the route
    observed is ["/login"]. *)
Example scenario_upload_signed_out :
  let b := commit (boot ∅ "/login") in
  session b = {| localStorage := ∅; isAuthenticated := false |}
  /\ App (isAuthenticated (session b)) "/upload"
     = Public (Some (Navigate "/login")).
Proof. split; reflexivity. Qed.

(** ** Startup: the first render and the mount effect *)

Lemma commit_mounted (b : Browser) : mounted (commit b) = true.
Proof. unfold commit. by destruct (mounted b). Qed.

Lemma commit_session_mounted (b : Browser) :
  mounted b = true ->
  session (commit b) = session b
  /\ initializations (commit b) = initializations b.
Proof. intros H. unfold commit. by rewrite H. Qed.

Lemma commits_after_mount (n : nat) (b : Browser) :
  mounted b = true ->
  mounted (Nat.iter n commit b) = true
  /\ session (Nat.iter n commit b) = session b
  /\ initializations (Nat.iter n commit b) = initializations b.
Proof.
  intros Hb. induction n as [|n (Hm & Hs & Hi)]; simpl; [done|].
  destruct (commit_session_mounted _ Hm) as [Hs' Hi'].
  rewrite commit_mounted, Hs', Hi'. done.
Qed.

Lemma iter_commit_shift (n : nat) (b : Browser) :
  Nat.iter (S n) commit b = Nat.iter n commit (commit b).
Proof.
  induction n as [|n IH]; [reflexivity|].
  change (Nat.iter (S (S n)) commit b) with (commit (Nat.iter (S n) commit b)).
  by rewrite IH.
Qed.

(** C3 as stated fails on the code: with a token pair
    in storage and the application opened at ["/upload"], the first frame
    is decided with [isAuthenticated = false] and shows the public tree's
    redirect, not the page the stored credentials entitle to. *)
Lemma C3_first_frame_ignores_storage :
  let ls : gmap string string :=
    <["refresh_token" := "ref456"]> {[ "access_token" := "tok123" ]} in
  Storage.getItem "access_token" ls = Some "tok123"
  /\ first_render ls "/upload" = Public (Some (Navigate "/login"))
  /\ first_render ls "/upload"
     <> App (Js.truthy_nullable (Storage.getItem "access_token" ls)) "/upload".
Proof.
  split; [reflexivity|]. split; [reflexivity|]. discriminate.
Qed.

(** What the first frame costs: opened at ["/upload"] with stored
    credentials, the application shows the login redirect, then the
    shell's redirect, and settles on the dashboard. *)
Example startup_frames_with_credentials :
  let ls : gmap string string :=
    <["refresh_token" := "ref456"]> {[ "access_token" := "tok123" ]} in
  frames 3 (boot ls "/upload")
  = [ Public (Some (Navigate "/login"));
      Shell (Some (Navigate "/"));
      Shell (Some (Render DashboardPage)) ].
Proof. reflexivity. Qed.

(** C3 (as the code has it). [initialize] is the mount effect of [App]: it
    runs after the first render and exactly once. The first route decision
    is made with [isAuthenticated = false] whatever the storage holds, so
    it is always the public tree's; from the first commit on,
    [isAuthenticated] is the truthiness of the persisted access token, the
    storage is untouched, and every later route decision is made with that
    value. *)
Theorem C3_initialize_after_first_render
    (ls : gmap string string) (path : string) (n : nat) :
  let b := Nat.iter (S n) commit (boot ls path) in
  first_render ls path = App false path
  /\ initializations (boot ls path) = 0
  /\ initializations b = 1
  /\ isAuthenticated (session b)
     = Js.truthy_nullable (Storage.getItem "access_token" ls)
  /\ localStorage (session b) = ls
  /\ render b
     = App (Js.truthy_nullable (Storage.getItem "access_token" ls))
           (pathname b).
Proof.
  intros b. unfold b. rewrite iter_commit_shift.
  destruct (commits_after_mount n (commit (boot ls path))
              (commit_mounted _)) as (_ & Hs & Hi).
  unfold render. rewrite Hs, Hi.
  repeat split; reflexivity.
Qed.

(** ** Credential exchange: the forms *)

Ltac run_handler :=
  cbv [exec Login.handleSubmit Register.handleSubmit Register.on_error
       Dashboard.loadDashboardData RiskAssessment.loadRiskData
       Reports.loadReports
       await onLogin navigate console_error emit get_page set_page
       call_handleLogin set_location
       Login.setError Login.setLoading
       Register.setError Register.setLoading
       Dashboard.setSummary Dashboard.setCashFlowData Dashboard.setLoading
       RiskAssessment.setRiskData RiskAssessment.setLoading
       Reports.setReports Reports.setLoading
       mbind mret M_bind M_ret
       w_session w_location w_trace w_page snd fst].

Lemma Login_handleSubmit_rejected
    (api : Api) (w : World Login.State) (err : AxiosError) :
  api _ (PostAuthLogin (Login.email (w_page w)) (Login.password (w_page w)))
  = Rejected err ->
  exec (Login.handleSubmit api) w
  = {| w_session := w_session w;
       w_location := w_location w;
       w_trace := w_trace w ++
         [Sent (PostAuthLogin (Login.email (w_page w))
                              (Login.password (w_page w)))];
       w_page :=
         {| Login.email := Login.email (w_page w);
            Login.password := Login.password (w_page w);
            Login.showPassword := Login.showPassword (w_page w);
            Login.error :=
              Js.or (detail err) (Js.Str "Login failed. Please try again.");
            Login.loading := false |} |}.
Proof.
  intros H. destruct w as [s l t [e p sp er ld]]. simpl in H.
  run_handler. simpl. rewrite H. simpl. reflexivity.
Qed.

Lemma Register_handleSubmit_mismatch
    (api : Api) (w : World Register.State) :
  Register.password (Register.formData (w_page w))
  <> Register.confirmPassword (Register.formData (w_page w)) ->
  Register.handleSubmit api w
  = (tt, {| w_session := w_session w;
            w_location := w_location w;
            w_trace := w_trace w;
            w_page :=
              {| Register.formData := Register.formData (w_page w);
                 Register.error := "Passwords do not match";
                 Register.loading := Register.loading (w_page w) |} |}).
Proof.
  intros H. apply String.eqb_neq in H.
  destruct w as [s l t [form er ld]]. simpl in H.
  run_handler. simpl. rewrite H. reflexivity.
Qed.

Lemma Register_handleSubmit_register_rejected
    (api : Api) (w : World Register.State) (err : AxiosError) :
  let form := Register.formData (w_page w) in
  Register.password form = Register.confirmPassword form ->
  api _ (PostAuthRegister (Register.email form) (Register.password form)
           (Register.company_name form) (Register.industry_type form))
  = Rejected err ->
  exec (Register.handleSubmit api) w
  = {| w_session := w_session w;
       w_location := w_location w;
       w_trace := w_trace w ++
         [Sent (PostAuthRegister (Register.email form) (Register.password form)
                  (Register.company_name form) (Register.industry_type form));
          ConsoleError];
       w_page :=
         {| Register.formData := form;
            Register.error := Register.errorMessage err;
            Register.loading := false |} |}.
Proof.
  intros form Hpw H. apply String.eqb_eq in Hpw.
  destruct w as [s l t [f er ld]]. simpl in *. subst form.
  run_handler. simpl. rewrite Hpw, H. simpl.
  by rewrite <- app_assoc.
Qed.

Lemma Register_handleSubmit_registered
    (api : Api) (w : World Register.State) (u : unit) :
  let form := Register.formData (w_page w) in
  let register := PostAuthRegister (Register.email form) (Register.password form)
                    (Register.company_name form) (Register.industry_type form) in
  let login := PostAuthLogin (Register.email form) (Register.password form) in
  Register.password form = Register.confirmPassword form ->
  api _ register = Resolved u ->
  exec (Register.handleSubmit api) w
  = match api _ login with
    | Resolved data =>
        {| w_session :=
             handleLogin (access_token data) (refresh_token data) (w_session w);
           w_location := "/";
           w_trace := w_trace w ++
             [Sent register; Sent login;
              OnLogin (access_token data) (refresh_token data);
              NavigateTo "/"];
           w_page :=
             {| Register.formData := form;
                Register.error := "";
                Register.loading := false |} |}
    | Rejected err =>
        {| w_session := w_session w;
           w_location := w_location w;
           w_trace := w_trace w ++ [Sent register; Sent login; ConsoleError];
           w_page :=
             {| Register.formData := form;
                Register.error := Register.errorMessage err;
                Register.loading := false |} |}
    end.
Proof.
  intros form register login Hpw H. apply String.eqb_eq in Hpw.
  destruct w as [s l t [f er ld]]. simpl in *. subst form register login.
  run_handler. simpl. rewrite Hpw, H. simpl.
  destruct (api TokenPair _) as [data|err]; simpl;
    by rewrite <- !app_assoc.
Qed.

Lemma onLogin_calls_app (t1 t2 : list Event) :
  onLogin_calls (t1 ++ t2) = onLogin_calls t1 ++ onLogin_calls t2.
Proof. apply omap_app. Qed.

Lemma requests_sent_app (t1 t2 : list Event) :
  requests_sent (t1 ++ t2) = requests_sent t1 ++ requests_sent t2.
Proof. apply omap_app. Qed.

Lemma Register_errorMessage_cases (err : AxiosError) :
  Register.errorMessage err
  = if Js.truthy (detail err) then Js.to_display (detail err)
    else if Js.truthy_string (message err) then message err
    else "Registration failed. Please try again.".
Proof.
  unfold Register.errorMessage, Js.or.
  destruct (Js.truthy (detail err)) eqn:Hd; simpl.
  - by rewrite Hd.
  - destruct (Js.truthy_string (message err)) eqn:Hm; simpl; by rewrite ?Hm.
Qed.

(** X24. When the server rejects [POST /auth/login] on the login page, or
    [POST /auth/register] or the sign-in that follows it on the register
    page, the page's error cell holds the response's [detail] when there is
    one, and a fallback message otherwise; the session is exactly what it
    was (so [isAuthenticated] and the storage are unchanged), [onLogin] is
    not called, and the location does not move. *)
Theorem X24_credential_failure_keeps_session (api : Api) :
  (forall (w : World Login.State) (err : AxiosError),
      api _ (PostAuthLogin (Login.email (w_page w))
                           (Login.password (w_page w))) = Rejected err ->
      let w' := exec (Login.handleSubmit api) w in
      w_session w' = w_session w
      /\ onLogin_calls (w_trace w') = onLogin_calls (w_trace w)
      /\ w_location w' = w_location w
      /\ Login.error (w_page w')
         = (if Js.truthy (detail err) then detail err
            else Js.Str "Login failed. Please try again.")
      /\ Login.loading (w_page w') = false)
  /\ (forall (w : World Register.State) (err : AxiosError),
        let form := Register.formData (w_page w) in
        let register :=
          PostAuthRegister (Register.email form) (Register.password form)
            (Register.company_name form) (Register.industry_type form) in
        let login :=
          PostAuthLogin (Register.email form) (Register.password form) in
        Register.password form = Register.confirmPassword form ->
        api _ register = Rejected err
        \/ (is_rejected (api _ register) = false
            /\ api _ login = Rejected err) ->
        let w' := exec (Register.handleSubmit api) w in
        w_session w' = w_session w
        /\ onLogin_calls (w_trace w') = onLogin_calls (w_trace w)
        /\ w_location w' = w_location w
        /\ Register.error (w_page w')
           = (if Js.truthy (detail err) then Js.to_display (detail err)
              else if Js.truthy_string (message err) then message err
              else "Registration failed. Please try again.")
        /\ Register.loading (w_page w') = false).
Proof.
  split.
  - intros w err H w'. unfold w'.
    rewrite (Login_handleSubmit_rejected api w err H). simpl.
    rewrite onLogin_calls_app. simpl. rewrite app_nil_r.
    repeat split; reflexivity.
  - intros w err form register login Hpw Hrej w'. unfold w'.
    rewrite <- Register_errorMessage_cases.
    destruct Hrej as [Hreg | [Hreg Hlogin]].
    + rewrite (Register_handleSubmit_register_rejected api w err Hpw Hreg).
      simpl. rewrite onLogin_calls_app. simpl. rewrite app_nil_r.
      repeat split; reflexivity.
    + fold form in Hpw. subst register.
      destruct (api unit _) as [u|e] eqn:Hu; [|discriminate].
      rewrite (Register_handleSubmit_registered api w u Hpw Hu).
      fold form. fold login. rewrite Hlogin. simpl.
      rewrite onLogin_calls_app. simpl. rewrite app_nil_r.
      repeat split; reflexivity.
Qed.

Lemma X24_credential_failure_keeps_session_witness :
  (let w' := exec (Login.handleSubmit offline)
                  (visitor "/login" filled_login) in
   w_session w' = initial
   /\ Login.error (w_page w') = Js.Str "Login failed. Please try again.")
  /\ (let w' := exec (Register.handleSubmit register_only)
                     (visitor "/register" (filled_register "hunter2")) in
      w_session w' = initial
      /\ Register.error (w_page w') = "Incorrect email or password").
Proof.
  destruct (X24_credential_failure_keeps_session offline) as [Hlogin _].
  destruct (X24_credential_failure_keeps_session register_only)
    as [_ Hregister].
  split.
  - destruct (Hlogin (visitor "/login" filled_login)
                {| detail := Js.Undefined; message := "Network Error" |}
                eq_refl) as (Hs & _ & _ & He & _).
    split; [exact Hs | exact He].
  - destruct (Hregister (visitor "/register" (filled_register "hunter2"))
                {| detail := Js.Str "Incorrect email or password";
                   message := "Request failed with status code 401" |}
                eq_refl (or_intror (conj eq_refl eq_refl)))
      as (Hs & _ & _ & He & _).
    split; [exact Hs | exact He].
Defined.

(** What the login page shows once a rejected request has settled. *)
Lemma Login_alert_rejected
    (api : Api) (w : World Login.State) (err : AxiosError) :
  api _ (PostAuthLogin (Login.email (w_page w)) (Login.password (w_page w)))
  = Rejected err ->
  Login.alert (w_page (exec (Login.handleSubmit api) w))
  = match detail err with
    | Js.Object _ => RenderError
    | d => Alert (Js.or d (Js.Str "Login failed. Please try again."))
    end.
Proof.
  intros H. rewrite (Login_handleSubmit_rejected api w err H).
  unfold Login.alert, Js.or. cbn [w_page Login.error].
  destruct (detail err) as [| |s|[] j|j]; try reflexivity.
  destruct (Js.truthy (Js.Str s)) eqn:E; [rewrite E|]; reflexivity.
Qed.

(** C5 fails on the login page. [POST /auth/login] is rejected with the
    validation error of the server, whose [detail] is an array of objects.
    The session is left as it was, but the page puts the array itself into
    its error cell and hands it to the alert as a child, which React
    refuses: nothing is displayed inline. The register page, given the
    same rejection, shows the detail as JSON text. *)
Theorem C5_login_object_detail_not_displayed :
  let w' := exec (Login.handleSubmit rejects_input)
                 (visitor "/login" filled_login) in
  let r' := exec (Register.handleSubmit rejects_input)
                 (visitor "/register" (filled_register "hunter2")) in
  Login.error (w_page w') = detail validation_error
  /\ Login.alert (w_page w') = RenderError
  /\ w_session w' = initial
  /\ onLogin_calls (w_trace w') = []
  /\ Register.alert (w_page r')
     = Alert (Js.Str (Js.to_display (detail validation_error))).
Proof. repeat split; reflexivity. Qed.



(** C10. A successful [POST /auth/register] does not authenticate by
    itself: the register page then sends [POST /auth/login] with the same
    email and password. If that resolves, [onLogin] is called with the
    returned token pair and the page navigates to ["/"]; if it is rejected,
    the session is what it was before, although the account exists. *)
Theorem C10_register_then_auto_login
    (api : Api) (w : World Register.State) :
  let form := Register.formData (w_page w) in
  let register :=
    PostAuthRegister (Register.email form) (Register.password form)
      (Register.company_name form) (Register.industry_type form) in
  let login := PostAuthLogin (Register.email form) (Register.password form) in
  Register.password form = Register.confirmPassword form ->
  is_rejected (api _ register) = false ->
  let w' := exec (Register.handleSubmit api) w in
  match api _ login with
  | Resolved data =>
      w_trace w' = w_trace w ++
        [Sent register; Sent login;
         OnLogin (access_token data) (refresh_token data); NavigateTo "/"]
      /\ w_session w'
         = handleLogin (access_token data) (refresh_token data) (w_session w)
      /\ isAuthenticated (w_session w') = true
      /\ w_location w' = "/"
  | Rejected err =>
      w_trace w' = w_trace w ++ [Sent register; Sent login; ConsoleError]
      /\ w_session w' = w_session w
      /\ w_location w' = w_location w
      /\ Register.error (w_page w') = Register.errorMessage err
  end.
Proof.
  intros form register login Hpw Hok w'. unfold w'. subst register.
  destruct (api unit _) as [u|e] eqn:Hu; [|discriminate].
  rewrite (Register_handleSubmit_registered api w u Hpw Hu).
  fold form. fold login.
  destruct (api TokenPair login) as [data|err]; simpl;
    repeat split; reflexivity.
Qed.

Lemma C10_register_then_auto_login_witness :
  let w := visitor "/register" (filled_register "hunter2") in
  let w' := exec (Register.handleSubmit auth_only) w in
  w_trace w'
  = [ Sent (PostAuthRegister "owner@example.com" "hunter2"
                             "Acme Traders" "retail");
      Sent (PostAuthLogin "owner@example.com" "hunter2");
      OnLogin "tok123" "ref456"; NavigateTo "/" ]
  /\ w_session w' = handleLogin "tok123" "ref456" initial
  /\ isAuthenticated (w_session w') = true
  /\ w_location w' = "/".
Proof.
  exact (C10_register_then_auto_login auth_only
           (visitor "/register" (filled_register "hunter2"))
           eq_refl eq_refl).
Defined.

(** The account exists, the sign-in is refused: nobody is signed in. *)
Example register_only_leaves_session :
  let w' := exec (Register.handleSubmit register_only)
                 (visitor "/register" (filled_register "hunter2")) in
  requests_sent (w_trace w') = ["POST /auth/register"; "POST /auth/login"]
  /\ onLogin_calls (w_trace w') = []
  /\ w_session w' = initial
  /\ w_location w' = "/register".
Proof. repeat split; reflexivity. Qed.

(** ** Data pages: the placeholder data *)

Lemma Promise_all_rejected {A B : Type} (p : Promise A) (q : Promise B) :
  is_rejected p || is_rejected q = true ->
  is_rejected (Promise_all p q) = true.
Proof. destruct p, q; simpl; congruence. Qed.

Lemma loadDashboardData_rejected (api : Api) (w : World Dashboard.State) :
  is_rejected (api _ GetFinancialSummary)
  || is_rejected (api _ (GetFinancialCashFlow 6)) = true ->
  exec (Dashboard.loadDashboardData api) w
  = {| w_session := w_session w;
       w_location := w_location w;
       w_trace := w_trace w ++
         [Sent GetFinancialSummary; Sent (GetFinancialCashFlow 6)];
       w_page :=
         {| Dashboard.loading := false;
            Dashboard.summary := Some Dashboard.mockSummary;
            Dashboard.cashFlowData := Dashboard.mockCashFlow |} |}.
Proof.
  intros H. apply Promise_all_rejected in H.
  destruct w as [s l t [ld sm cf]].
  run_handler. simpl.
  destruct (Promise_all _ _) as [[? ?]|e]; [discriminate|]. simpl.
  by rewrite <- app_assoc.
Qed.

Lemma loadRiskData_rejected (api : Api) (w : World RiskAssessment.State) :
  is_rejected (api _ GetAnalysisRisk) = true ->
  exec (RiskAssessment.loadRiskData api) w
  = {| w_session := w_session w;
       w_location := w_location w;
       w_trace := w_trace w ++ [Sent GetAnalysisRisk];
       w_page :=
         {| RiskAssessment.loading := false;
            RiskAssessment.riskData :=
              Some RiskAssessment.mockRiskData |} |}.
Proof.
  intros H. destruct w as [s l t [ld rd]].
  run_handler. simpl.
  destruct (api RiskData GetAnalysisRisk) as [d|e]; [discriminate|].
  reflexivity.
Qed.

Lemma loadReports_rejected (api : Api) (w : World Reports.State) :
  is_rejected (api _ GetReports) = true ->
  exec (Reports.loadReports api) w
  = {| w_session := w_session w;
       w_location := w_location w;
       w_trace := w_trace w ++ [Sent GetReports];
       w_page :=
         {| Reports.loading := false;
            Reports.reports := Reports.mockReports;
            Reports.dialogOpen := Reports.dialogOpen (w_page w);
            Reports.generating := Reports.generating (w_page w);
            Reports.selectedType := Reports.selectedType (w_page w) |} |}.
Proof.
  intros H. destruct w as [s l t [ld rp dl gn st]].
  run_handler. simpl.
  destruct (api ReportList GetReports) as [d|e]; [discriminate|].
  reflexivity.
Qed.

(** C7. When the request of a data page fails (either of the two dashboard
    requests, the risk analysis request, the reports list request), the
    page puts its built-in placeholder data into its state and stops
    loading: what it then renders is its content, with a summary and six
    cash-flow points on the dashboard, a risk record with its factors and
    recommendations on the risk page, and three reports on the reports
    page. *)
Theorem C7_fetch_failure_placeholder (api : Api) :
  (forall w : World Dashboard.State,
      is_rejected (api _ GetFinancialSummary)
      || is_rejected (api _ (GetFinancialCashFlow 6)) = true ->
      let st := w_page (exec (Dashboard.loadDashboardData api) w) in
      Dashboard.summary st = Some Dashboard.mockSummary
      /\ Dashboard.cashFlowData st = Dashboard.mockCashFlow
      /\ length (Dashboard.cashFlowData st) = 6
      /\ Dashboard.render st
         = Content (Some Dashboard.mockSummary, Dashboard.mockCashFlow))
  /\ (forall w : World RiskAssessment.State,
        is_rejected (api _ GetAnalysisRisk) = true ->
        let st := w_page (exec (RiskAssessment.loadRiskData api) w) in
        RiskAssessment.riskData st = Some RiskAssessment.mockRiskData
        /\ length (risk_factors RiskAssessment.mockRiskData) = 3
        /\ length (recommendations RiskAssessment.mockRiskData) = 2
        /\ RiskAssessment.render st
           = Content (Some RiskAssessment.mockRiskData))
  /\ (forall w : World Reports.State,
        is_rejected (api _ GetReports) = true ->
        let st := w_page (exec (Reports.loadReports api) w) in
        Reports.reports st = Reports.mockReports
        /\ length (Reports.reports st) = 3
        /\ Reports.render st = Content Reports.mockReports).
Proof.
  split; [|split].
  - intros w H st. unfold st.
    rewrite (loadDashboardData_rejected api w H). simpl.
    repeat split; reflexivity.
  - intros w H st. unfold st.
    rewrite (loadRiskData_rejected api w H). simpl.
    repeat split; reflexivity.
  - intros w H st. unfold st.
    rewrite (loadReports_rejected api w H). simpl.
    repeat split; reflexivity.
Qed.

Lemma C7_fetch_failure_placeholder_witness :
  Dashboard.render
    (w_page (exec (Dashboard.loadDashboardData offline)
                  (visitor "/" Dashboard.init)))
  = Content (Some Dashboard.mockSummary, Dashboard.mockCashFlow)
  /\ RiskAssessment.render
       (w_page (exec (RiskAssessment.loadRiskData offline)
                     (visitor "/risk" RiskAssessment.init)))
     = Content (Some RiskAssessment.mockRiskData)
  /\ Reports.render
       (w_page (exec (Reports.loadReports offline)
                     (visitor "/reports" Reports.init)))
     = Content Reports.mockReports.
Proof.
  destruct (C7_fetch_failure_placeholder offline) as (Hd & Hr & Hp).
  split; [|split].
  - apply (Hd (visitor "/" Dashboard.init)). reflexivity.
  - apply (Hr (visitor "/risk" RiskAssessment.init)). reflexivity.
  - apply (Hp (visitor "/reports" Reports.init)). reflexivity.
Defined.

(** When the requests succeed, the page shows what the server sent; an
    empty list from the server stays empty. *)
Example loadReports_resolved_empty :
  let api : Api :=
    fun A r =>
      match r in Request T return Promise T with
      | GetReports => Resolved {| items := None |}
      | _ => Rejected {| detail := Js.Undefined; message := "" |}
      end in
  Reports.render
    (w_page (exec (Reports.loadReports api) (visitor "/reports" Reports.init)))
  = Content [].
Proof. reflexivity. Qed.

(** * Further properties of the code *)

(** ** Composing the session operations *)

Lemma storage_login_login (a r a' r' : string) (ls : gmap string string) :
  Storage.setItem "refresh_token" r'
    (Storage.setItem "access_token" a'
       (Storage.setItem "refresh_token" r
          (Storage.setItem "access_token" a ls)))
  = Storage.setItem "refresh_token" r' (Storage.setItem "access_token" a' ls).
Proof.
  unfold Storage.setItem. apply map_eq. intros k.
  rewrite !lookup_insert. repeat case_decide; congruence.
Qed.

Lemma storage_login_logout (a r : string) (ls : gmap string string) :
  Storage.removeItem "refresh_token"
    (Storage.removeItem "access_token"
       (Storage.setItem "refresh_token" r
          (Storage.setItem "access_token" a ls)))
  = Storage.removeItem "refresh_token" (Storage.removeItem "access_token" ls).
Proof.
  unfold Storage.setItem, Storage.removeItem. apply map_eq. intros k.
  rewrite !lookup_delete, !lookup_insert. repeat case_decide; congruence.
Qed.

(** X1. The last [login] wins and a [logout] erases it: logging in over an
    earlier login leaves exactly the state the second login alone gives,
    and logging out after a login leaves the state a logout alone gives. *)
Theorem X1_login_overwritten (a r a' r' : string) (s : Session) :
  handleLogin a' r' (handleLogin a r s) = handleLogin a' r' s
  /\ handleLogout (handleLogin a r s) = handleLogout s.
Proof.
  split.
  - unfold handleLogin. simpl. f_equal. apply storage_login_login.
  - unfold handleLogout, handleLogin. simpl. f_equal.
    apply storage_login_logout.
Qed.

Lemma step_other_keys (s : Session) (o : op) (k : string) :
  k <> "access_token" -> k <> "refresh_token" ->
  localStorage (step s o) !! k = localStorage s !! k.
Proof.
  intros Ha Hr. destruct o as [|a r|]; simpl;
    unfold Storage.setItem, Storage.removeItem.
  - reflexivity.
  - rewrite !lookup_insert_ne by congruence. reflexivity.
  - rewrite !lookup_delete_ne by congruence. reflexivity.
Qed.

(** X2. No sequence of session operations, valid or not, changes any
    storage entry other than [access_token] and [refresh_token]: whatever
    else the origin keeps in [localStorage] is left as it was. *)
Theorem X2_other_storage_untouched
    (ops : list op) (s : Session) (k : string) :
  k <> "access_token" -> k <> "refresh_token" ->
  localStorage (run ops s) !! k = localStorage s !! k.
Proof.
  intros Ha Hr. revert s. induction ops as [|o ops IH]; intros s; simpl.
  - reflexivity.
  - change (fold_left step ops (step s o)) with (run ops (step s o)).
    rewrite IH. by apply step_other_keys.
Qed.

Lemma X2_other_storage_untouched_witness :
  localStorage
    (run [Login "tok123" "ref456"; Logout; Initialize]
         (mount {[ "i18nextLng" := "hi" ]})) !! "i18nextLng"
  = Some "hi".
Proof.
  rewrite (X2_other_storage_untouched
             [Login "tok123" "ref456"; Logout; Initialize]
             (mount {[ "i18nextLng" := "hi" ]}) "i18nextLng");
    [reflexivity | discriminate | discriminate].
Defined.

Lemma signed_in_after_snoc (ops : list op) (o : op) :
  signed_in_after (ops ++ [o])
  = match o with
    | Login _ _ => true
    | Logout => false
    | Initialize => signed_in_after ops
    end.
Proof. unfold signed_in_after. by rewrite fold_left_app. Qed.

(** X3. After any sequence of [initialize], valid [login] and [logout]
    from the initial state, [isAuthenticated] tells whether the last
    [login] or [logout] of the sequence was a [login]; [initialize] never
    changes the answer. *)
Theorem X3_last_call_decides (ops : list op) :
  forallb valid_op ops = true ->
  isAuthenticated (run ops initial) = signed_in_after ops.
Proof.
  induction ops as [|o ops IH] using rev_ind; intros Hv.
  - reflexivity.
  - rewrite forallb_app in Hv. apply andb_true_iff in Hv as [Hops Ho].
    rewrite run_snoc, signed_in_after_snoc.
    destruct o as [|a r|]; simpl; try reflexivity.
    rewrite <- (IH Hops).
    destruct (session_ok_run ops initial Hops session_ok_initial)
      as (Hauth & _ & _).
    symmetry. exact Hauth.
Qed.

Lemma X3_last_call_decides_witness :
  isAuthenticated
    (run [Login "tok123" "ref456"; Initialize; Logout; Initialize;
          Login "a" "r"; Initialize] initial) = true.
Proof.
  rewrite (X3_last_call_decides
             [Login "tok123" "ref456"; Initialize; Logout; Initialize;
              Login "a" "r"; Initialize]); reflexivity.
Defined.

(** X4. [login] sets [isAuthenticated] whatever it is given, but a reload
    only finds the user signed in when the access token was not the empty
    string: a login with an empty access token lasts until the next
    reload. *)
Theorem X4_login_survives_reload_iff_nonempty (a r : string) (s : Session) :
  isAuthenticated (handleLogin a r s) = true
  /\ (isAuthenticated (reload (handleLogin a r s)) = true <-> a <> "").
Proof.
  split; [reflexivity|].
  rewrite reload_isAuthenticated, accessToken_handleLogin. simpl.
  apply truthy_string_spec.
Qed.



(** ** Redirects and where a startup comes to rest *)

(** X6. Neither tree can loop: whenever the guard answers with a redirect,
    the target is ["/"] in the shell and ["/login"] outside it, and asking
    the guard for that target renders a page (the dashboard, the login
    page) instead of redirecting again. *)
Theorem X6_redirect_target_renders (auth : bool) (path to : string) :
  shown (App auth path) = Some (Navigate to) ->
  to = (if auth then "/" else "/login")
  /\ shown (App auth to)
     = Some (Render (if auth then DashboardPage else LoginPage)).
Proof.
  destruct auth.
  - rewrite App_protected. cbn [shown]. repeat case_decide; try discriminate.
    intros [= <-]. split; reflexivity.
  - rewrite App_public. cbn [shown]. repeat case_decide; try discriminate.
    intros [= <-]. split; reflexivity.
Qed.

Lemma X6_redirect_target_renders_witness :
  shown (App true "/nowhere") = Some (Navigate "/")
  /\ shown (App true "/") = Some (Render DashboardPage).
Proof.
  split; [reflexivity|].
  apply (X6_redirect_target_renders true "/nowhere" "/"). reflexivity.
Defined.











(** ** The forms, whatever the server answers *)

Ltac run_page :=
  cbv [exec Login.handleSubmit Register.handleSubmit Register.on_error
       Register.handleChange Register.setFormData
       Reports.loadReports Reports.generateReport
       Reports.setDialogOpen Reports.setGenerating
       Layout.onItemClick Layout.onMenuButtonClick Layout.onLogoutClick
       Layout.setMobileOpen Layout.setAnchorEl
       await onLogin onLogout navigate console_error emit get_page set_page
       call_handleLogin set_location
       Login.setError Login.setLoading
       Register.setError Register.setLoading
       Reports.setReports Reports.setLoading
       mbind mret M_bind M_ret
       w_session w_location w_trace w_page snd fst].

Lemma Login_handleSubmit_resolved
    (api : Api) (w : World Login.State) (data : TokenPair) :
  api _ (PostAuthLogin (Login.email (w_page w)) (Login.password (w_page w)))
  = Resolved data ->
  exec (Login.handleSubmit api) w
  = {| w_session :=
         handleLogin (access_token data) (refresh_token data) (w_session w);
       w_location := "/";
       w_trace := w_trace w ++
         [Sent (PostAuthLogin (Login.email (w_page w))
                              (Login.password (w_page w)));
          OnLogin (access_token data) (refresh_token data);
          NavigateTo "/"];
       w_page :=
         {| Login.email := Login.email (w_page w);
            Login.password := Login.password (w_page w);
            Login.showPassword := Login.showPassword (w_page w);
            Login.error := Js.Str "";
            Login.loading := false |} |}.
Proof.
  intros H. destruct w as [s l t [e p sp er ld]]. simpl in H.
  run_page. simpl. rewrite H. simpl. by rewrite <- !app_assoc.
Qed.

(** X9. When [POST /auth/login] resolves, the login page calls [onLogin]
    once with the returned pair, so both tokens are stored, clears its
    error, stops loading and navigates to ["/"], where the guard now shows
    the dashboard inside the shell. *)
Theorem X9_login_success_opens_dashboard
    (api : Api) (w : World Login.State) (data : TokenPair) :
  api _ (PostAuthLogin (Login.email (w_page w)) (Login.password (w_page w)))
  = Resolved data ->
  let w' := exec (Login.handleSubmit api) w in
  onLogin_calls (w_trace w')
  = onLogin_calls (w_trace w) ++ [(access_token data, refresh_token data)]
  /\ accessToken (w_session w') = Some (access_token data)
  /\ refreshToken (w_session w') = Some (refresh_token data)
  /\ w_location w' = "/"
  /\ App (isAuthenticated (w_session w')) (w_location w')
     = Shell (Some (Render DashboardPage))
  /\ Login.error (w_page w') = Js.Str ""
  /\ Login.loading (w_page w') = false.
Proof.
  intros H w'. unfold w'. rewrite (Login_handleSubmit_resolved api w data H).
  cbn [w_session w_location w_trace w_page Login.error Login.loading].
  rewrite onLogin_calls_app, accessToken_handleLogin, refreshToken_handleLogin.
  repeat split; reflexivity.
Qed.

Lemma X9_login_success_opens_dashboard_witness :
  let w' := exec (Login.handleSubmit auth_only)
                 (visitor "/login" filled_login) in
  onLogin_calls (w_trace w') = [("tok123", "ref456")]
  /\ accessToken (w_session w') = Some "tok123"
  /\ refreshToken (w_session w') = Some "ref456"
  /\ w_location w' = "/"
  /\ App (isAuthenticated (w_session w')) (w_location w')
     = Shell (Some (Render DashboardPage))
  /\ Login.error (w_page w') = Js.Str ""
  /\ Login.loading (w_page w') = false.
Proof.
  exact (X9_login_success_opens_dashboard auth_only
           (visitor "/login" filled_login)
           {| access_token := "tok123"; refresh_token := "ref456" |}
           eq_refl).
Defined.

(** X10. Whatever the server answers, a submit of the login form sends
    exactly one request, [POST /auth/login], calls [onLogin] at most once,
    leaves the typed email and password in place and ends with the
    loading flag cleared. Afterwards the page shows no alert when the
    request resolved; when it was rejected it shows the alert with the
    response's [detail], or with the fallback text when the detail is
    falsy, unless the detail is an object, in which case rendering the
    alert throws. *)
Theorem X10_login_submit_always_settles
    (api : Api) (w : World Login.State) :
  let request :=
    PostAuthLogin (Login.email (w_page w)) (Login.password (w_page w)) in
  let w' := exec (Login.handleSubmit api) w in
  requests_sent (w_trace w')
  = requests_sent (w_trace w) ++ ["POST /auth/login"]
  /\ length (onLogin_calls (w_trace w'))
     <= S (length (onLogin_calls (w_trace w)))
  /\ Login.email (w_page w') = Login.email (w_page w)
  /\ Login.password (w_page w') = Login.password (w_page w)
  /\ Login.loading (w_page w') = false
  /\ Login.alert (w_page w')
     = match api _ request with
       | Resolved _ => NoAlert
       | Rejected err =>
           match detail err with
           | Js.Object _ => RenderError
           | d => Alert (Js.or d (Js.Str "Login failed. Please try again."))
           end
       end.
Proof.
  intros request w'. unfold w'.
  destruct (api _ request) as [data|err] eqn:H.
  - rewrite (Login_handleSubmit_resolved api w data H).
    cbn [w_trace w_page Login.email Login.password Login.loading Login.error].
    rewrite requests_sent_app, onLogin_calls_app, length_app. simpl.
    repeat split; lia.
  - pose proof (Login_alert_rejected api w err H) as Halert.
    rewrite (Login_handleSubmit_rejected api w err H) in *.
    cbn [w_trace w_page Login.email Login.password Login.loading Login.error].
    rewrite requests_sent_app, onLogin_calls_app, length_app. simpl.
    repeat split; try lia. exact Halert.
Qed.

(** X11. Whatever the server answers, a submit of the register form sends
    nothing, or [POST /auth/register] alone, or [POST /auth/register]
    followed by [POST /auth/login], never a login request without a
    registration before it; and it never changes what was typed into the
    form. *)
Theorem X11_register_submit_requests
    (api : Api) (w : World Register.State) :
  let w' := exec (Register.handleSubmit api) w in
  (requests_sent (w_trace w') = requests_sent (w_trace w)
   \/ requests_sent (w_trace w')
      = requests_sent (w_trace w) ++ ["POST /auth/register"]
   \/ requests_sent (w_trace w')
      = requests_sent (w_trace w)
        ++ ["POST /auth/register"; "POST /auth/login"])
  /\ Register.formData (w_page w') = Register.formData (w_page w).
Proof.
  intros w'. unfold w'.
  set (form := Register.formData (w_page w)).
  destruct (String.eqb_spec (Register.password form)
              (Register.confirmPassword form)) as [Hpw|Hpw].
  - destruct (api _ (PostAuthRegister (Register.email form)
                       (Register.password form) (Register.company_name form)
                       (Register.industry_type form))) as [u|err] eqn:Hreg.
    + rewrite (Register_handleSubmit_registered api w u Hpw Hreg).
      fold form.
      destruct (api TokenPair _) as [data|err];
        cbn [w_trace w_page Register.formData];
        rewrite requests_sent_app; simpl; auto.
    + rewrite (Register_handleSubmit_register_rejected api w err Hpw Hreg).
      cbn [w_trace w_page Register.formData].
      rewrite requests_sent_app. simpl. auto.
  - unfold exec. rewrite (Register_handleSubmit_mismatch api w Hpw). simpl.
    auto.
Qed.

Lemma Register_handleChange_exec
    (field value : string) (w : World Register.State) :
  exec (Register.handleChange field value) w
  = {| w_session := w_session w;
       w_location := w_location w;
       w_trace := w_trace w;
       w_page :=
         {| Register.formData :=
              Register.with_field (Register.formData (w_page w)) field value;
            Register.error := Register.error (w_page w);
            Register.loading := Register.loading (w_page w) |} |}.
Proof. destruct w as [s l t [f er ld]]. reflexivity. Qed.

(** X12. Typing the same text into the password field and into its
    confirmation and then submitting never stops at the mismatch check:
    the first thing the submit does is send [POST /auth/register] with
    that password and with the email, company name and industry the form
    already held. *)
Theorem X12_matching_passwords_reach_the_server
    (api : Api) (w : World Register.State) (p : string) :
  let form := Register.formData (w_page w) in
  let typed :=
    exec (Register.handleChange "confirmPassword" p)
         (exec (Register.handleChange "password" p) w) in
  exists rest : list Event,
    w_trace (exec (Register.handleSubmit api) typed)
    = w_trace w
      ++ Sent (PostAuthRegister (Register.email form) p
                 (Register.company_name form) (Register.industry_type form))
      :: rest.
Proof.
  intros form typed. unfold typed. rewrite !Register_handleChange_exec.
  cbn [w_session w_location w_trace w_page Register.formData
       Register.error Register.loading].
  set (w2 := {| w_session := _ |}).
  assert (Hpw : Register.password (Register.formData (w_page w2))
                = Register.confirmPassword (Register.formData (w_page w2)))
    by reflexivity.
  destruct (api _ (PostAuthRegister
                     (Register.email (Register.formData (w_page w2)))
                     (Register.password (Register.formData (w_page w2)))
                     (Register.company_name (Register.formData (w_page w2)))
                     (Register.industry_type (Register.formData (w_page w2)))))
    as [u|err] eqn:Hreg.
  - rewrite (Register_handleSubmit_registered api w2 u Hpw Hreg).
    destruct (api TokenPair _) as [data|err]; eexists; reflexivity.
  - rewrite (Register_handleSubmit_register_rejected api w2 err Hpw Hreg).
    eexists; reflexivity.
Qed.

(** ** The data pages, whatever the server answers *)

Lemma loadDashboardData_exec (api : Api) (w : World Dashboard.State) :
  exec (Dashboard.loadDashboardData api) w
  = {| w_session := w_session w;
       w_location := w_location w;
       w_trace := w_trace w ++
         [Sent GetFinancialSummary; Sent (GetFinancialCashFlow 6)];
       w_page :=
         match Promise_all (api _ GetFinancialSummary)
                           (api _ (GetFinancialCashFlow 6)) with
         | Resolved (summaryData, cashFlowResData) =>
             {| Dashboard.loading := false;
                Dashboard.summary := Some summaryData;
                Dashboard.cashFlowData :=
                  default [] (historical cashFlowResData) |}
         | Rejected _ =>
             {| Dashboard.loading := false;
                Dashboard.summary := Some Dashboard.mockSummary;
                Dashboard.cashFlowData := Dashboard.mockCashFlow |}
         end |}.
Proof.
  destruct w as [s l t [ld sm cf]]. run_handler. simpl.
  destruct (Promise_all _ _) as [[? ?]|e]; simpl; by rewrite <- app_assoc.
Qed.

Lemma loadRiskData_exec (api : Api) (w : World RiskAssessment.State) :
  exec (RiskAssessment.loadRiskData api) w
  = {| w_session := w_session w;
       w_location := w_location w;
       w_trace := w_trace w ++ [Sent GetAnalysisRisk];
       w_page :=
         {| RiskAssessment.loading := false;
            RiskAssessment.riskData :=
              Some match api _ GetAnalysisRisk with
                   | Resolved data => data
                   | Rejected _ => RiskAssessment.mockRiskData
                   end |} |}.
Proof.
  destruct w as [s l t [ld rd]]. run_handler. simpl.
  destruct (api RiskData GetAnalysisRisk) as [d|e]; reflexivity.
Qed.

Lemma loadReports_exec (api : Api) (w : World Reports.State) :
  exec (Reports.loadReports api) w
  = {| w_session := w_session w;
       w_location := w_location w;
       w_trace := w_trace w ++ [Sent GetReports];
       w_page :=
         {| Reports.loading := false;
            Reports.reports :=
              match api _ GetReports with
              | Resolved data => default [] (items data)
              | Rejected _ => Reports.mockReports
              end;
            Reports.dialogOpen := Reports.dialogOpen (w_page w);
            Reports.generating := Reports.generating (w_page w);
            Reports.selectedType := Reports.selectedType (w_page w) |} |}.
Proof.
  destruct w as [s l t [ld rp dl gn st]]. run_handler. simpl.
  destruct (api ReportList GetReports) as [d|e]; reflexivity.
Qed.

(** X13. Whatever the server answers, rejections included, none of the
    three loaders touches the session or the location, none calls
    [onLogin], and each ends with its page out of the loading state: a
    rejected data request never signs the user out, and the spinner never
    stays. *)
Theorem X13_loaders_leave_session_and_stop_loading (api : Api) :
  (forall w : World Dashboard.State,
      let w' := exec (Dashboard.loadDashboardData api) w in
      w_session w' = w_session w
      /\ w_location w' = w_location w
      /\ onLogin_calls (w_trace w') = onLogin_calls (w_trace w)
      /\ Dashboard.loading (w_page w') = false)
  /\ (forall w : World RiskAssessment.State,
        let w' := exec (RiskAssessment.loadRiskData api) w in
        w_session w' = w_session w
        /\ w_location w' = w_location w
        /\ onLogin_calls (w_trace w') = onLogin_calls (w_trace w)
        /\ RiskAssessment.loading (w_page w') = false)
  /\ (forall w : World Reports.State,
        let w' := exec (Reports.loadReports api) w in
        w_session w' = w_session w
        /\ w_location w' = w_location w
        /\ onLogin_calls (w_trace w') = onLogin_calls (w_trace w)
        /\ Reports.loading (w_page w') = false).
Proof.
  split; [|split]; intros w w'; unfold w'.
  - rewrite loadDashboardData_exec. cbn [w_session w_location w_trace w_page].
    rewrite onLogin_calls_app. simpl. rewrite app_nil_r.
    destruct (Promise_all _ _) as [[? ?]|?]; repeat split; reflexivity.
  - rewrite loadRiskData_exec. cbn [w_session w_location w_trace w_page].
    rewrite onLogin_calls_app. simpl. rewrite app_nil_r.
    repeat split; reflexivity.
  - rewrite loadReports_exec. cbn [w_session w_location w_trace w_page].
    rewrite onLogin_calls_app. simpl. rewrite app_nil_r.
    repeat split; reflexivity.
Qed.

(** X14. When its requests resolve, a data page shows what the server
    sent and nothing of the placeholder data: the dashboard the summary
    and the [historical] series (an empty chart when the series is
    missing), the risk page the risk record, the reports page the [items]
    (an empty list when they are missing). *)
Theorem X14_loaders_show_server_data (api : Api) :
  (forall (w : World Dashboard.State) (s : FinancialSummary) (c : CashFlow),
      api _ GetFinancialSummary = Resolved s ->
      api _ (GetFinancialCashFlow 6) = Resolved c ->
      Dashboard.render (w_page (exec (Dashboard.loadDashboardData api) w))
      = Content (Some s, default [] (historical c)))
  /\ (forall (w : World RiskAssessment.State) (d : RiskData),
        api _ GetAnalysisRisk = Resolved d ->
        RiskAssessment.render
          (w_page (exec (RiskAssessment.loadRiskData api) w))
        = Content (Some d))
  /\ (forall (w : World Reports.State) (l : ReportList),
        api _ GetReports = Resolved l ->
        Reports.render (w_page (exec (Reports.loadReports api) w))
        = Content (default [] (items l))).
Proof.
  split; [|split].
  - intros w s c Hs Hc. rewrite loadDashboardData_exec, Hs, Hc. reflexivity.
  - intros w d Hd. rewrite loadRiskData_exec, Hd. reflexivity.
  - intros w l Hl. rewrite loadReports_exec, Hl. reflexivity.
Qed.

Lemma X14_loaders_show_server_data_witness :
  let api : Api :=
    fun A r =>
      match r in Request T return Promise T with
      | GetReports => Resolved {| items := None |}
      | _ => Rejected {| detail := Js.Undefined; message := "" |}
      end in
  Reports.render
    (w_page (exec (Reports.loadReports api) (visitor "/reports" Reports.init)))
  = Content [].
Proof.
  intros api.
  destruct (X14_loaders_show_server_data api) as (_ & _ & H).
  exact (H (visitor "/reports" Reports.init) {| items := None |} eq_refl).
Defined.

Lemma generateReport_exec (api : Api) (w : World Reports.State) :
  exec (Reports.generateReport api) w
  = match api _ (PostReportsGenerate (Reports.selectedType (w_page w))) with
    | Resolved _ =>
        {| w_session := w_session w;
           w_location := w_location w;
           w_trace := w_trace w ++
             [Sent (PostReportsGenerate (Reports.selectedType (w_page w)));
              Sent GetReports];
           w_page :=
             {| Reports.loading := false;
                Reports.reports :=
                  match api _ GetReports with
                  | Resolved data => default [] (items data)
                  | Rejected _ => Reports.mockReports
                  end;
                Reports.dialogOpen := false;
                Reports.generating := false;
                Reports.selectedType := Reports.selectedType (w_page w) |} |}
    | Rejected _ =>
        {| w_session := w_session w;
           w_location := w_location w;
           w_trace := w_trace w ++
             [Sent (PostReportsGenerate (Reports.selectedType (w_page w)));
              ConsoleError];
           w_page :=
             {| Reports.loading := Reports.loading (w_page w);
                Reports.reports := Reports.reports (w_page w);
                Reports.dialogOpen := Reports.dialogOpen (w_page w);
                Reports.generating := false;
                Reports.selectedType := Reports.selectedType (w_page w) |} |}
    end.
Proof.
  destruct w as [s l t [ld rp dl gn st]]. run_page. simpl.
  destruct (api unit (PostReportsGenerate st)) as [u|e]; simpl.
  - destruct (api ReportList GetReports) as [d|e]; simpl;
      by rewrite <- !app_assoc.
  - by rewrite <- !app_assoc.
Qed.

(** X15. When [POST /api/reports/generate] is rejected, the reports page
    keeps its list and leaves the dialog as it was, sends no request for
    the list, and clears the generating flag: the failure is only logged
    to the console. *)
Theorem X15_generate_failure_is_silent
    (api : Api) (w : World Reports.State) :
  is_rejected (api _ (PostReportsGenerate (Reports.selectedType (w_page w))))
  = true ->
  let w' := exec (Reports.generateReport api) w in
  Reports.reports (w_page w') = Reports.reports (w_page w)
  /\ Reports.dialogOpen (w_page w') = Reports.dialogOpen (w_page w)
  /\ Reports.loading (w_page w') = Reports.loading (w_page w)
  /\ Reports.generating (w_page w') = false
  /\ w_trace w'
     = w_trace w ++
       [Sent (PostReportsGenerate (Reports.selectedType (w_page w)));
        ConsoleError]
  /\ w_session w' = w_session w.
Proof.
  intros H w'. unfold w'. rewrite generateReport_exec.
  destruct (api unit _) as [u|e]; [discriminate|].
  repeat split; reflexivity.
Qed.

Lemma X15_generate_failure_is_silent_witness :
  let w := visitor "/reports" Reports.init in
  let w' := exec (Reports.generateReport offline) w in
  Reports.reports (w_page w') = []
  /\ Reports.generating (w_page w') = false
  /\ requests_sent (w_trace w') = ["POST /api/reports/generate"].
Proof.
  destruct (X15_generate_failure_is_silent offline
              (visitor "/reports" Reports.init) eq_refl)
    as (Hr & _ & _ & Hg & Ht & _).
  split; [exact Hr | split; [exact Hg | by rewrite Ht]].
Defined.

(** X16. When [POST /api/reports/generate] resolves, the page closes the
    dialog, asks for the list again and clears the generating flag; the
    list it then shows is the server's, or the three placeholder reports
    when the list request fails. *)
Theorem X16_generate_success_reloads
    (api : Api) (w : World Reports.State) :
  is_rejected (api _ (PostReportsGenerate (Reports.selectedType (w_page w))))
  = false ->
  let w' := exec (Reports.generateReport api) w in
  Reports.dialogOpen (w_page w') = false
  /\ Reports.generating (w_page w') = false
  /\ requests_sent (w_trace w')
     = requests_sent (w_trace w)
       ++ ["POST /api/reports/generate"; "GET /api/reports"]
  /\ Reports.reports (w_page w')
     = match api _ GetReports with
       | Resolved data => default [] (items data)
       | Rejected _ => Reports.mockReports
       end.
Proof.
  intros H w'. unfold w'. rewrite generateReport_exec.
  destruct (api unit _) as [u|e]; [|discriminate].
  cbn [w_trace w_page Reports.dialogOpen Reports.generating Reports.reports].
  rewrite requests_sent_app. repeat split; reflexivity.
Qed.

Lemma X16_generate_success_reloads_witness :
  let api : Api :=
    fun A r =>
      match r in Request T return Promise T with
      | PostReportsGenerate _ => Resolved tt
      | _ => Rejected {| detail := Js.Undefined; message := "" |}
      end in
  let w' := exec (Reports.generateReport api)
                 (visitor "/reports" Reports.init) in
  Reports.dialogOpen (w_page w') = false
  /\ Reports.generating (w_page w') = false
  /\ requests_sent (w_trace w')
     = ["POST /api/reports/generate"; "GET /api/reports"]
  /\ Reports.reports (w_page w') = Reports.mockReports.
Proof.
  intros api.
  exact (X16_generate_success_reloads api
           (visitor "/reports" Reports.init) eq_refl).
Defined.

(** ** Uploads *)

Lemma exec_then {P : Type} (m k : M P unit) (w : World P) :
  exec (m;; k) w = exec k (exec m w).
Proof.
  unfold exec, mbind, M_bind. destruct (m w) as [[] w1]. reflexivity.
Qed.

Lemma update_exec (k : nat) (g : Upload.UploadedFile -> Upload.UploadedFile)
    (w : World Upload.State) :
  exec (Upload.update k g) w
  = Upload.with_files w (alter g k (Upload.files (w_page w))).
Proof. reflexivity. Qed.

Lemma with_files_files (w : World Upload.State) (l : list Upload.UploadedFile) :
  Upload.files (w_page (Upload.with_files w l)) = l.
Proof. reflexivity. Qed.

Lemma with_files_twice (w : World Upload.State)
    (l l' : list Upload.UploadedFile) :
  Upload.with_files (Upload.with_files w l) l' = Upload.with_files w l'.
Proof. reflexivity. Qed.

Lemma report_progress_exec (k : nat) (events : list Upload.ProgressEvent)
    (w : World Upload.State) :
  exec (Upload.report_progress k events) w
  = Upload.with_files w
      (alter (Upload.reported events) k (Upload.files (w_page w))).
Proof.
  revert w. induction events as [|ev events IH]; intros w.
  - destruct w as [s l t [fs e]]. unfold Upload.with_files. simpl.
    rewrite list_alter_id by done. reflexivity.
  - change (Upload.report_progress k (ev :: events))
      with (Upload.update k (Upload.mark_progress (Upload.progress_of ev));;
            Upload.report_progress k events).
    rewrite exec_then, update_exec, IH, with_files_files, with_files_twice.
    rewrite list_alter_alter_eq. reflexivity.
Qed.

(** One turn of the loop rewrites the record at [filesLength + i]. *)
Lemma upload_each_cons (api : Upload.UploadApi) (len i : nat)
    (f : Upload.File) (rest : list Upload.File) (w : World Upload.State) :
  exec (Upload.upload_each api len i (f :: rest)) w
  = exec (Upload.upload_each api len (S i) rest)
      (Upload.with_files w
         (alter (Upload.turn api f) (len + i) (Upload.files (w_page w)))).
Proof.
  change (Upload.upload_each api len i (f :: rest))
    with (Upload.update (len + i) Upload.mark_uploading;;
          Upload.report_progress (len + i) (fst (api f));;
          match snd (api f) with
          | Resolved response_id =>
              Upload.update (len + i) (Upload.mark_success response_id)
          | Rejected err => Upload.update (len + i) (Upload.mark_error err)
          end;;
          Upload.upload_each api len (S i) rest).
  rewrite !exec_then, update_exec, report_progress_exec.
  rewrite with_files_files, with_files_twice.
  f_equal. unfold Upload.turn.
  destruct (snd (api f)) as [rid|err];
    rewrite update_exec, with_files_files, with_files_twice,
      !list_alter_alter_eq; reflexivity.
Qed.

Lemma settled_turn (api : Upload.UploadApi) (f : Upload.File) :
  Upload.settled api f = Upload.turn api f (Upload.newFile f).
Proof. reflexivity. Qed.

Lemma alter_middle {A : Type} (g : A -> A) (pre done : list A) (x : A)
    (rest : list A) :
  alter g (length pre + length done) (pre ++ done ++ x :: rest)
  = pre ++ (done ++ [g x]) ++ rest.
Proof.
  rewrite alter_app_r, alter_app_r_alt by lia.
  rewrite Nat.sub_diag. simpl. by rewrite <- app_assoc.
Qed.

Lemma upload_each_exec (api : Upload.UploadApi)
    (rest : list Upload.File) (pre done : list Upload.UploadedFile)
    (w : World Upload.State) :
  Upload.files (w_page w) = pre ++ done ++ map Upload.newFile rest ->
  exec (Upload.upload_each api (length pre) (length done) rest) w
  = Upload.with_files w (pre ++ done ++ map (Upload.settled api) rest).
Proof.
  revert done w. induction rest as [|f rest IH]; intros done w Hw.
  - simpl in *. rewrite <- Hw. by destruct w as [s l t [fs e]].
  - rewrite upload_each_cons, Hw. simpl map.
    rewrite alter_middle, <- settled_turn.
    replace (S (length done))
      with (length (done ++ [Upload.settled api f]))
      by (rewrite length_app; simpl; lia).
    rewrite IH by reflexivity.
    rewrite with_files_twice. by rewrite <- app_assoc.
Qed.

Lemma onDrop_exec (api : Upload.UploadApi) (accepted : list Upload.File)
    (w : World Upload.State) :
  exec (Upload.onDrop api (length (Upload.files (w_page w))) accepted) w
  = {| w_session := w_session w;
       w_location := w_location w;
       w_trace := w_trace w;
       w_page :=
         {| Upload.files :=
              Upload.files (w_page w) ++ map (Upload.settled api) accepted;
            Upload.page_error := "" |} |}.
Proof.
  unfold Upload.onDrop. rewrite !exec_then.
  set (w1 := exec (Upload.setFiles _) _).
  assert (Hw1 : Upload.files (w_page w1)
                = Upload.files (w_page w) ++ [] ++ map Upload.newFile accepted)
    by (by destruct w as [s l t [fs e]]).
  change (Upload.upload_each api (length (Upload.files (w_page w))) 0 accepted)
    with (Upload.upload_each api (length (Upload.files (w_page w)))
            (length (@nil Upload.UploadedFile)) accepted).
  rewrite (upload_each_exec api accepted _ [] w1 Hw1).
  by destruct w as [s l t [fs e]].
Qed.

Lemma reported_fields (events : list Upload.ProgressEvent)
    (u : Upload.UploadedFile) :
  Upload.id (Upload.reported events u) = Upload.id u
  /\ Upload.name (Upload.reported events u) = Upload.name u
  /\ Upload.status (Upload.reported events u) = Upload.status u
  /\ Upload.file_error (Upload.reported events u) = Upload.file_error u.
Proof.
  revert u. induction events as [|ev events IH]; intros u; [done|].
  change (Upload.reported (ev :: events) u)
    with (Upload.reported events
            (Upload.mark_progress (Upload.progress_of ev) u)).
  destruct (IH (Upload.mark_progress (Upload.progress_of ev) u))
    as (-> & -> & -> & ->).
  done.
Qed.

Lemma settled_name (api : Upload.UploadApi) (f : Upload.File) :
  Upload.name (Upload.settled api f) = Upload.file_name f.
Proof.
  unfold Upload.settled.
  destruct (reported_fields (fst (api f))
              (Upload.mark_uploading (Upload.newFile f)))
    as (_ & Hname & _ & _).
  fold (Upload.reported (fst (api f))
          (Upload.mark_uploading (Upload.newFile f))).
  destruct (snd (api f)); cbn [Upload.name Upload.mark_success
                                 Upload.mark_error]; exact Hname.
Qed.

(** X17. A drop made when the callback's closure holds the current length
    of the list leaves every earlier entry as it was and appends one entry
    per accepted file, in the order dropped and under the file's own name;
    it clears the page error and touches neither session nor location. *)
Theorem X17_drop_appends_in_order
    (api : Upload.UploadApi) (accepted : list Upload.File)
    (w : World Upload.State) :
  let old := Upload.files (w_page w) in
  let w' := exec (Upload.onDrop api (length old) accepted) w in
  length (Upload.files (w_page w')) = length old + length accepted
  /\ take (length old) (Upload.files (w_page w')) = old
  /\ map Upload.name (drop (length old) (Upload.files (w_page w')))
     = map Upload.file_name accepted
  /\ Upload.page_error (w_page w') = ""
  /\ w_session w' = w_session w
  /\ w_location w' = w_location w.
Proof.
  intros old w'. unfold w', old. rewrite onDrop_exec.
  cbn [w_session w_location w_page Upload.files Upload.page_error].
  rewrite length_app, length_map, take_app_length, drop_app_length.
  repeat split; try reflexivity.
  rewrite map_map. apply map_ext. intros f. apply settled_name.
Qed.

(** X18. After such a drop no dropped file is left pending or uploading:
    the entry of a file whose request resolved is a success at 100 percent
    with the identifier the server returned and no error, and the entry of
    a file whose request was rejected is an error carrying the response's
    [detail], or ["Upload failed"] when there is none. *)
Theorem X18_dropped_files_settle
    (api : Upload.UploadApi) (accepted : list Upload.File)
    (w : World Upload.State) (i : nat) (f : Upload.File) :
  accepted !! i = Some f ->
  let old := Upload.files (w_page w) in
  let w' := exec (Upload.onDrop api (length old) accepted) w in
  exists u : Upload.UploadedFile,
    Upload.files (w_page w') !! (length old + i) = Some u
    /\ Upload.name u = Upload.file_name f
    /\ match snd (api f) with
       | Resolved response_id =>
           Upload.status u = Upload.success
           /\ Upload.progress u = 100%Z
           /\ Upload.id u = Some response_id
           /\ Upload.file_error u = None
       | Rejected err =>
           Upload.status u = Upload.error
           /\ Upload.id u = None
           /\ Upload.file_error u
              = Some (if Js.truthy (detail err) then detail err
                      else Js.Str "Upload failed")
       end.
Proof.
  intros Hi old w'. exists (Upload.settled api f). unfold w', old.
  rewrite onDrop_exec. cbn [w_page Upload.files].
  split.
  - rewrite lookup_app_r by lia.
    replace (length (Upload.files (w_page w)) + i
             - length (Upload.files (w_page w))) with i by lia.
    by rewrite list_lookup_fmap, Hi.
  - split; [apply settled_name|]. unfold Upload.settled.
    destruct (reported_fields (fst (api f))
                (Upload.mark_uploading (Upload.newFile f)))
      as (Hid & _ & _ & Herr).
    fold (Upload.reported (fst (api f))
            (Upload.mark_uploading (Upload.newFile f))).
    destruct (snd (api f)) as [rid|err];
      cbn [Upload.id Upload.status Upload.progress Upload.file_error
           Upload.mark_success Upload.mark_error];
      rewrite ?Hid, ?Herr; repeat split; reflexivity.
Qed.

Lemma X18_dropped_files_settle_witness :
  let api : Upload.UploadApi :=
    fun f =>
      if String.eqb (Upload.file_name f) "ledger.csv"
      then ([ {| Upload.loaded := 512; Upload.total := Some 1024%Z |} ],
            Resolved 7%Z)
      else ([], Rejected {| detail := Js.Undefined;
                            message := "Network Error" |}) in
  let accepted :=
    [ {| Upload.file_name := "ledger.csv"; Upload.file_size := 1024 |};
      {| Upload.file_name := "scan.pdf"; Upload.file_size := 4096 |} ] in
  let w' := exec (Upload.onDrop api 0 accepted) (visitor "/upload" Upload.init) in
  exists u : Upload.UploadedFile,
    Upload.files (w_page w') !! 1 = Some u
    /\ Upload.name u = "scan.pdf"
    /\ Upload.status u = Upload.error
    /\ Upload.id u = None
    /\ Upload.file_error u = Some (Js.Str "Upload failed").
Proof.
  intros api accepted.
  exact (X18_dropped_files_settle api accepted
           (visitor "/upload" Upload.init) 1
           {| Upload.file_name := "scan.pdf"; Upload.file_size := 4096 |}
           eq_refl).
Defined.

Lemma upload_each_window (api : Upload.UploadApi) (len : nat)
    (rest : list Upload.File) (i j : nat) (w : World Upload.State) :
  j < len + i \/ len + i + length rest <= j ->
  Upload.files (w_page (exec (Upload.upload_each api len i rest) w)) !! j
  = Upload.files (w_page w) !! j.
Proof.
  revert i w. induction rest as [|f rest IH]; intros i w Hj.
  - reflexivity.
  - rewrite upload_each_cons.
    rewrite IH by (simpl in Hj; lia).
    rewrite with_files_files.
    apply list_lookup_alter_ne. simpl in Hj. lia.
Qed.

(** X19. The loop of a drop addresses its entries by the length the
    closure holds, not by the list's: it writes to positions [filesLength]
    to [filesLength + n - 1] and to no other. When the two lengths differ,
    an appended entry outside that window is never updated and stays
    pending. *)
Theorem X19_drop_writes_only_its_window
    (api : Upload.UploadApi) (filesLength : nat)
    (accepted : list Upload.File) (w : World Upload.State) (j : nat) :
  j < filesLength \/ filesLength + length accepted <= j ->
  Upload.files (w_page (exec (Upload.onDrop api filesLength accepted) w)) !! j
  = (Upload.files (w_page w) ++ map Upload.newFile accepted) !! j.
Proof.
  intros Hj. unfold Upload.onDrop. rewrite !exec_then.
  rewrite upload_each_window by lia.
  by destruct w as [s l t [fs e]].
Qed.

Lemma X19_drop_writes_only_its_window_witness :
  let api : Upload.UploadApi := fun _ => ([], Resolved 7%Z) in
  let earlier :=
    {| Upload.id := Some 3%Z; Upload.name := "january.xlsx";
       Upload.status := Upload.success; Upload.progress := 100;
       Upload.file_error := None |} in
  let w := visitor "/upload"
             {| Upload.files := [earlier]; Upload.page_error := "" |} in
  Upload.files
    (w_page (exec (Upload.onDrop api 0
                     [ {| Upload.file_name := "ledger.csv";
                          Upload.file_size := 1024 |} ]) w)) !! 1
  = Some (Upload.newFile {| Upload.file_name := "ledger.csv";
                            Upload.file_size := 1024 |}).
Proof.
  intros api earlier w.
  apply (X19_drop_writes_only_its_window api 0
           [ {| Upload.file_name := "ledger.csv"; Upload.file_size := 1024 |} ]
           w 1).
  right. simpl. lia.
Defined.

(** X20. A progress report with [0 <= loaded <= total] gives a percentage
    between 0 and 100, also when [total] is 0. *)
Theorem X20_progress_within_bounds (ev : Upload.ProgressEvent) (t : Z) :
  Upload.total ev = Some t ->
  (0 <= Upload.loaded ev <= t)%Z ->
  (0 <= Upload.progress_of ev <= 100)%Z.
Proof.
  intros Ht [Hlo Hhi]. unfold Upload.progress_of, Upload.Math_round_div.
  rewrite Ht. destruct (Z.eqb_spec t 0) as [->|Hne].
  - assert (Upload.loaded ev = 0)%Z as -> by lia. by compute.
  - assert (0 < t)%Z by lia. split.
    + apply Z.div_pos; lia.
    + assert ((2 * (Upload.loaded ev * 100) + t) / (2 * t) < 101)%Z; [|lia].
      apply Z.div_lt_upper_bound; lia.
Qed.

Lemma X20_progress_within_bounds_witness :
  (0 <= Upload.progress_of
          {| Upload.loaded := 512; Upload.total := Some 1024%Z |} <= 100)%Z.
Proof.
  apply (X20_progress_within_bounds
           {| Upload.loaded := 512; Upload.total := Some 1024%Z |} 1024);
    [reflexivity | simpl; lia].
Defined.

(** ** The shell's navigation *)

Lemma selected_count (pathname : string) :
  length (List.filter (Layout.selected pathname) Layout.menuItems)
  = if decide (pathname = "/") then 1
    else if decide (pathname = "/upload") then 1
    else if decide (pathname = "/risk") then 1
    else if decide (pathname = "/reports") then 1
    else if decide (pathname = "/settings") then 1
    else 0.
Proof.
  unfold Layout.menuItems, Layout.selected, List.filter.
  cbn [Layout.path].
  repeat match goal with
         | |- context [String.eqb pathname ?q] =>
             destruct (String.eqb_spec pathname q)
         end;
    repeat case_decide; subst; try congruence; reflexivity.
Qed.

(** X21. The side navigation compares the location with an entry's path
    exactly, the router does not. At most one entry is highlighted, and
    one is exactly when the pathname is the path of an entry as written;
    every entry's path is one the shell renders a page for; but with a
    slash appended to an entry's path the shell still renders that page
    while no entry is highlighted. *)
Theorem X21_menu_highlight_is_exact (pathname : string) :
  length (List.filter (Layout.selected pathname) Layout.menuItems)
  = (if bool_decide (In pathname (map Layout.path Layout.menuItems))
     then 1 else 0)
  /\ (forall item : Layout.MenuItem,
        In item Layout.menuItems ->
        (exists pg : Page,
            App true (Layout.path item) = Shell (Some (Render pg)))
        /\ App true (Layout.path item +:+ "/") = App true (Layout.path item)
        /\ List.filter (Layout.selected (Layout.path item +:+ "/"))
                       Layout.menuItems = []).
Proof.
  split.
  - rewrite selected_count. cbn [map Layout.menuItems Layout.path].
    destruct (bool_decide_reflect
                (In pathname ["/"; "/upload"; "/risk"; "/reports"; "/settings"]))
      as [Hin|Hnin].
    + simpl in Hin.
      repeat destruct Hin as [<- | Hin]; try contradiction; reflexivity.
    + repeat case_decide; try reflexivity; exfalso; apply Hnin; subst;
        simpl; auto 6.
  - intros item Hin. simpl in Hin.
    repeat destruct Hin as [<- | Hin]; try contradiction;
      (split; [eexists; reflexivity | split; reflexivity]).
Qed.

Lemma X21_menu_highlight_is_exact_witness :
  App true "/upload/" = Shell (Some (Render UploadPage))
  /\ List.filter (Layout.selected "/upload/") Layout.menuItems = [].
Proof.
  destruct (X21_menu_highlight_is_exact "/upload/") as [_ H].
  destruct (H {| Layout.text := "upload"; Layout.path := "/upload" |})
    as (_ & Hsame & Hnone).
  - simpl. auto.
  - split; [exact Hsame | exact Hnone].
Defined.

Lemma onItemClick_exec (isMobile : bool) (item : Layout.MenuItem)
    (w : World Layout.State) :
  exec (Layout.onItemClick isMobile item) w
  = {| w_session := w_session w;
       w_location := Layout.path item;
       w_trace := w_trace w ++ [NavigateTo (Layout.path item)];
       w_page :=
         {| Layout.mobileOpen :=
              if isMobile then false else Layout.mobileOpen (w_page w);
            Layout.anchorEl := Layout.anchorEl (w_page w) |} |}.
Proof. destruct w as [s l t [mo an]], isMobile; reflexivity. Qed.

(** X22. Choosing an entry of the side navigation moves the location to
    the entry's path and, on a small viewport, closes the drawer in the
    same step: afterwards the chosen entry is the one highlighted, the
    shell renders a page at the new location, the drawer is open exactly
    when the viewport is not small, and the session is untouched. *)
Theorem X22_menu_click_navigates_and_closes
    (isMobile : bool) (item : Layout.MenuItem) (w : World Layout.State) :
  In item Layout.menuItems ->
  let w' := exec (Layout.onItemClick isMobile item) w in
  w_location w' = Layout.path item
  /\ List.filter (Layout.selected (w_location w')) Layout.menuItems = [item]
  /\ (exists pg : Page,
        App true (w_location w') = Shell (Some (Render pg)))
  /\ Layout.drawerOpen isMobile (w_page w') = negb isMobile
  /\ w_session w' = w_session w.
Proof.
  intros Hin w'. unfold w'. rewrite onItemClick_exec.
  cbn [w_session w_location w_page].
  split; [reflexivity|]. split; [|split; [|split]].
  - simpl in Hin.
    repeat destruct Hin as [<- | Hin]; try contradiction; reflexivity.
  - simpl in Hin.
    repeat destruct Hin as [<- | Hin]; try contradiction;
      eexists; reflexivity.
  - by destruct isMobile.
  - reflexivity.
Qed.

Lemma X22_menu_click_navigates_and_closes_witness :
  let item := {| Layout.text := "reports"; Layout.path := "/reports" |} in
  let w := visitor "/upload"
             {| Layout.mobileOpen := true; Layout.anchorEl := false |} in
  let w' := exec (Layout.onItemClick true item) w in
  w_location w' = "/reports"
  /\ List.filter (Layout.selected (w_location w')) Layout.menuItems = [item]
  /\ (exists pg : Page,
        App true (w_location w') = Shell (Some (Render pg)))
  /\ Layout.drawerOpen true (w_page w') = false
  /\ w_session w' = w_session w.
Proof.
  intros item w.
  apply (X22_menu_click_navigates_and_closes true item w).
  simpl. auto 6.
Defined.

Lemma onLogoutClick_exec (w : World Layout.State) :
  exec Layout.onLogoutClick w
  = {| w_session := handleLogout (w_session w);
       w_location := w_location w;
       w_trace := w_trace w;
       w_page := w_page w |}.
Proof. by destruct w. Qed.

(** X23. The shell's logout entry needs no redirect of its own: it clears
    both tokens and the state cell and leaves the location alone, and the
    guard then answers for that location from the public tree, which sends
    every shell path to ["/login"]. *)
Theorem X23_logout_click_leaves_shell
    (item : Layout.MenuItem) (w : World Layout.State) :
  In item Layout.menuItems ->
  w_location w = Layout.path item ->
  let w' := exec Layout.onLogoutClick w in
  accessToken (w_session w') = None
  /\ refreshToken (w_session w') = None
  /\ w_location w' = w_location w
  /\ App (isAuthenticated (w_session w')) (w_location w')
     = Public (Some (Navigate "/login")).
Proof.
  intros Hin Hloc w'. unfold w'. rewrite onLogoutClick_exec.
  cbn [w_session w_location].
  rewrite accessToken_handleLogout, refreshToken_handleLogout, Hloc.
  repeat split. simpl in Hin.
  repeat destruct Hin as [<- | Hin]; try contradiction; reflexivity.
Qed.

Lemma X23_logout_click_leaves_shell_witness :
  let w : World Layout.State :=
    {| w_session := handleLogin "tok123" "ref456" initial;
       w_location := "/risk"; w_trace := []; w_page := Layout.init |} in
  let w' := exec Layout.onLogoutClick w in
  accessToken (w_session w') = None
  /\ refreshToken (w_session w') = None
  /\ w_location w' = "/risk"
  /\ App (isAuthenticated (w_session w')) (w_location w')
     = Public (Some (Navigate "/login")).
Proof.
  intros w.
  apply (X23_logout_click_leaves_shell
           {| Layout.text := "riskAssessment"; Layout.path := "/risk" |} w).
  - simpl. auto.
  - reflexivity.
Defined.
